(** * Weighted tool evaluation: a model of [evaluate.py]

    The pipeline loads a rubric (criteria with weights and a score scale),
    loads one row of raw scores per tool, computes a weighted total and a
    normalized percentage per tool, ranks the tools and writes two reports.

    Python's [float] is IEEE 754 binary64.  It is modelled with the
    bit-level specification [spec_float] of the standard library at
    precision 53 and maximal exponent 1024: every operation below is the
    correctly rounded one, computed on integers, so the model can be run
    inside the logic.  Primitive floats are loaded only to compare a few
    constants with the hardware's. *)

From Stdlib Require Import ZArith String Ascii DecimalString.
From Stdlib Require Import Floats.SpecFloat Floats.PrimFloat Floats.FloatOps.
From stdpp Require Import base option list sorting strings gmap.

Local Open Scope Z_scope.

(** ** Binary64 *)

Module F64.

Definition float := spec_float.

Definition add : float -> float -> float := SFadd 53 1024.
Definition sub : float -> float -> float := SFsub 53 1024.
Definition mul : float -> float -> float := SFmul 53 1024.
(** IEEE division; Python raises before reaching it when the divisor is
    a zero, see [truediv] below. *)
Definition div : float -> float -> float := SFdiv 53 1024.
Definition abs : float -> float := SFabs.
Definition compare : float -> float -> option comparison := SFcompare.
Definition ltb : float -> float -> bool := SFltb.
Definition leb : float -> float -> bool := SFleb.
Definition eqb : float -> float -> bool := SFeqb.
(** [x > y] is [y < x]. *)
Definition gtb (x y : float) : bool := ltb y x.

Definition is_nan (x : float) : bool :=
  match x with S754_nan => true | _ => false end.

Definition is_zero (x : float) : bool :=
  match x with S754_zero _ => true | _ => false end.

Definition zero : float := S754_zero false.

(** The integer [z] rounded to the nearest binary64, ties to even; an
    integer beyond the finite range comes out as an infinity. *)
Definition round_Z (z : Z) : float := binary_normalize 53 1024 z 0 false.

Definition one : float := Eval vm_compute in round_Z 1.
Definition hundred : float := Eval vm_compute in round_Z 100.

(** Exact comparison of an integer with a float, as Python compares an
    [int] with a [float]: no rounding of the integer takes place. *)
Definition compare_Z (z : Z) (x : float) : option comparison :=
  match x with
  | S754_nan => None
  | S754_infinity s => Some (if s then Gt else Lt)
  | S754_zero _ => Some (z ?= 0)
  | S754_finite s m e =>
      let v := cond_Zopp s (Zpos m) in
      Some (if 0 <=? e then z ?= v * 2 ^ e else z * 2 ^ (- e) ?= v)
  end.

(** [z <= x] for an integer [z] and a float [x]. *)
Definition Z_le (z : Z) (x : float) : bool :=
  match compare_Z z x with Some (Lt | Eq) => true | _ => false end.

(** [x <= z] for a float [x] and an integer [z]. *)
Definition le_Z (x : float) (z : Z) : bool :=
  match compare_Z z x with Some (Gt | Eq) => true | _ => false end.

(** [x == z] for a float [x] and an integer [z]. *)
Definition eq_Z (x : float) (z : Z) : bool :=
  match compare_Z z x with Some Eq => true | _ => false end.

(** The decimal [(-1)^s * m * 10^e] rounded to the nearest binary64,
    ties to even.  A non-negative exponent gives an integer, rounded
    once; a negative one gives a quotient of two integers, which the
    division of the specification rounds once, whatever the size of
    its operands. *)
Definition of_decimal (s : bool) (m : Z) (e : Z) : float :=
  match m with
  | Zpos p =>
      if 0 <=? e then binary_normalize 53 1024 (cond_Zopp s (Zpos p * 10 ^ e)) 0 s
      else SFdiv 53 1024 (S754_finite s p 0)
                         (S754_finite false (Z.to_pos (10 ^ (- e))) 0)
  | _ => S754_zero s
  end.

(** [num / den] rounded to the nearest integer, ties to even
    ([den] positive). *)
Definition div_half_even (num den : Z) : Z :=
  let q := num / den in
  match 2 * (num mod den) ?= den with
  | Lt => q
  | Gt => q + 1
  | Eq => if Z.even q then q else q + 1
  end.

(** [m * 2^e * 10^p] rounded to the nearest integer, ties to even: the
    digits of [m * 2^e] in fixed notation with [p] decimals. *)
Definition scaled (p : nat) (m : positive) (e : Z) : Z :=
  if 0 <=? e then Zpos m * 2 ^ e * 10 ^ Z.of_nat p
  else div_half_even (Zpos m * 10 ^ Z.of_nat p) (2 ^ (- e)).

End F64.

Abbreviation float := F64.float.

(** ** Strings

    A Python [str] is modelled by [string]; a character stands for the
    code point of the same number, so the model covers the strings whose
    code points lie below 256. *)

Module PyStr.

Definition code (c : ascii) : N := N_of_ascii c.

(** The code points below 256 that [str.strip] removes: the white space
    of Unicode, which includes the four separators 28 to 31. *)
Definition isspace (c : ascii) : bool :=
  let n := code c in
  ((9 <=? n) && (n <=? 13) || (28 <=? n) && (n <=? 32)
   || (n =? 133) || (n =? 160))%N.

Definition dropwhile (p : ascii -> bool) : list ascii -> list ascii :=
  fix go l :=
    match l with
    | c :: l' => if p c then go l' else l
    | [] => []
    end.

Definition strip_by (p : ascii -> bool) (l : list ascii) : list ascii :=
  rev (dropwhile p (rev (dropwhile p l))).

(** [s.strip()] *)
Definition strip (s : string) : string :=
  string_of_list_ascii (strip_by isspace (list_ascii_of_string s)).

Definition isdigit (c : ascii) : bool :=
  ((48 <=? code c) && (code c <=? 57))%N.

Definition digit (c : ascii) : Z := Z.of_N (code c) - 48.

(** ASCII lower case, enough to compare with [inf] and [nan]. *)
Definition lower (c : ascii) : ascii :=
  if ((65 <=? code c) && (code c <=? 90))%N
  then ascii_of_N (code c + 32) else c.

(** [str(n)] for a natural number [n]. *)
Definition of_N (n : N) : string := NilZero.string_of_uint (N.to_uint n).

(** [c] repeated [n] times. *)
Definition replicate (n : nat) (c : ascii) : string :=
  string_of_list_ascii (List.repeat c n).

(** Does [c] occur in [s]? *)
Fixpoint contains (c : ascii) (s : string) : bool :=
  match s with
  | String d s' => if Ascii.eqb c d then true else contains c s'
  | EmptyString => false
  end.

(** [sep.join(l)] *)
Fixpoint join (sep : string) (l : list string) : string :=
  match l with
  | [] => ""
  | [s] => s
  | s :: l' => s +:+ sep +:+ join sep l'
  end.

End PyStr.

(** ** Conversions between [str] and [float] *)

Module PyFloat.

Import F64.

(** The white space [float()] strips from both ends of its argument:
    the ASCII one, and beyond ASCII the Unicode white space, which it
    first maps to a space. *)
Definition isspace (c : ascii) : bool :=
  let n := PyStr.code c in
  ((9 <=? n) && (n <=? 13) || (n =? 32) || (n =? 133) || (n =? 160))%N.

(** A [digitpart] of the grammar of [float()]: digits, with single
    underscores allowed between two digits.  [n] counts the digits read
    so far and [acc] is their value; the result also holds what follows
    the digits. *)
Fixpoint digitpart (acc : Z) (n : nat) (l : list ascii) : Z * nat * list ascii :=
  match l with
  | c :: l' =>
      if PyStr.isdigit c then digitpart (10 * acc + PyStr.digit c) (S n) l'
      else if Ascii.eqb c "_" then
        match n, l' with
        | S _, d :: _ => if PyStr.isdigit d then digitpart acc n l' else (acc, n, l)
        | _, _ => (acc, n, l)
        end
      else (acc, n, l)
  | [] => (acc, n, [])
  end.

Definition is_e (c : ascii) : bool := Ascii.eqb c "e" || Ascii.eqb c "E".

(** A sign, if there is one, and what follows it. *)
Definition sign (l : list ascii) : bool * list ascii :=
  match l with
  | c :: l' =>
      if Ascii.eqb c "-" then (true, l')
      else if Ascii.eqb c "+" then (false, l') else (false, l)
  | [] => (false, [])
  end.

(** The [exponent] of the grammar, if [l] is one; the empty list is the
    exponent zero. *)
Definition exponent (l : list ascii) : option Z :=
  match l with
  | [] => Some 0
  | c :: l' =>
      if is_e c then
        let '(s, l'') := sign l' in
        match digitpart 0 0 l'' with
        | (v, S _, []) => Some (cond_Zopp s v)
        | _ => None
        end
      else None
  end.

(** A [floatnumber] of the grammar as a decimal [m * 10^e]. *)
Definition floatnumber (l : list ascii) : option (Z * Z) :=
  let '(vi, ni, l1) := digitpart 0 0 l in
  match l1 with
  | c :: l2 =>
      if Ascii.eqb c "." then
        let '(vf, nf, l3) := digitpart 0 0 l2 in
        match (ni + nf)%nat with
        | O => None
        | S _ =>
            e ← exponent l3;
            Some (vi * 10 ^ Z.of_nat nf + vf, e - Z.of_nat nf)
        end
      else
        match ni with
        | O => None
        | S _ => e ← exponent l1; Some (vi, e)
        end
  | [] => match ni with O => None | S _ => Some (vi, 0) end
  end.

(** [inf], [infinity] and [nan], in any case. *)
Definition special (s : bool) (l : list ascii) : option float :=
  let w := string_of_list_ascii (map PyStr.lower l) in
  if String.eqb w "inf" || String.eqb w "infinity" then Some (S754_infinity s)
  else if String.eqb w "nan" then Some S754_nan
  else None.

(** [float(s)] for a string [s]; [None] where Python raises
    [ValueError]. *)
Definition of_string (s : string) : option float :=
  let '(sg, l) := sign (PyStr.strip_by isspace (list_ascii_of_string s)) in
  match floatnumber l with
  | Some (m, e) => Some (of_decimal sg m e)
  | None => special sg l
  end.

(** Fixed notation with [p] decimals of a non-negative integer [n] that
    counts units of [10^-p]. *)
Definition fixed (p : nat) (n : Z) : string :=
  let ds := PyStr.of_N (Z.to_N n) in
  let ds := PyStr.replicate (S p - String.length ds) "0" +:+ ds in
  let k := (String.length ds - p)%nat in
  match p with
  | O => ds
  | S _ => substring 0 k ds +:+ "." +:+ substring k p ds
  end.

(** [format(x, '.pf')], the conversion behind [f"{x:.pf}"]: the exact
    value of [x] rounded to [p] decimals, ties to even. *)
Definition format_f (p : nat) (x : float) : string :=
  match x with
  | S754_nan => "nan"
  | S754_infinity s => if s then "-inf" else "inf"
  | S754_zero s => (if s then "-" else "") +:+ fixed p 0
  | S754_finite s m e => (if s then "-" else "") +:+ fixed p (scaled p m e)
  end.

End PyFloat.

(** ** Exceptions and the outcome of a call *)

(** The text of a [ValueError].  The two messages built from a value keep
    the value instead of its rendering. *)
Inductive message :=
| Text (s : string)
| ScoreOutOfRange (score : float)
| CouldNotConvert (value : string).

Inductive exn :=
| ValueError (m : message)
| KeyError (key : string)
| ZeroDivisionError
| OverflowError
| FileNotFoundError (path : string).

Inductive outcome (A : Type) :=
| Return (a : A)
| Raise (e : exn).

Arguments Return {A} a.
Arguments Raise {A} e.

#[global] Instance outcome_ret : MRet outcome := @Return.
#[global] Instance outcome_bind : MBind outcome :=
  fun A B f m => match m with Return a => f a | Raise e => Raise e end.

Definition raised {A} (m : outcome A) : bool :=
  match m with Raise _ => true | Return _ => false end.

(** ** Data model *)

(** A single evaluation criterion. *)
Record Criterion := { cid : string; name : string; weight : float }.

(** An entry of the [criteria] list of the rubric document, as the YAML
    loader returns it, for entries whose [id] and [name] are strings and
    whose [weight] is a float. *)
Record entry := { entry_id : string; entry_name : string; entry_weight : float }.

(** The rubric document: the two optional keys of [scale] (integers) and
    the [criteria] list. *)
Record document :=
  { scale_min : option Z; scale_max : option Z; raw_criteria : list entry }.

(** A row of scores, as annotated in the source: column name to text.
    The [None] that the CSV reader puts in the cells a short line lacks
    is no text and is outside the model. *)
Definition row := gmap string string.

(** One line of the ranking. *)
Record Result :=
  { tool : string; weighted_score : string;
    normalized_percent : string; notes : string }.

(** What the program reads and writes: the documents the YAML and CSV
    readers return for each path, the directories and files written, and
    the lines printed. *)
Record world :=
  { yaml_files : gmap string document;
    csv_files : gmap string (list row);
    dirs : gset string;
    files : gmap string string;
    stdout : list string }.

(** ** Numeric helpers of the interpreter *)

(** [float(n)] for an integer [n], as in [x + n] with [x] a float. *)
Definition float_of_int (n : Z) : outcome float :=
  match F64.round_Z n with
  | S754_infinity _ => Raise OverflowError
  | x => Return x
  end.

(** [x / y] on floats. *)
Definition truediv (x y : float) : outcome float :=
  if F64.is_zero y then Raise ZeroDivisionError else Return (F64.div x y).

Definition is_finite (x : float) : bool :=
  match x with S754_zero _ | S754_finite _ _ _ => true | _ => false end.

(** The float loop of [sum] from CPython 3.12 on: the partial sum [hi]
    and the compensation [lo] of Neumaier's algorithm. *)
Fixpoint sum_compensated (hi lo : float) (l : list float) : float :=
  match l with
  | [] => if F64.is_zero lo || negb (is_finite lo) then hi else F64.add hi lo
  | x :: l' =>
      let t := F64.add hi x in
      let d := if F64.leb (F64.abs x) (F64.abs hi)
               then F64.add (F64.sub hi t) x
               else F64.add (F64.sub x t) hi in
      sum_compensated t (F64.add lo d) l'
  end.

(** [sum(l)] for a list of floats.  It starts from the integer [0], so
    the first float is added to it as it is; then CPython up to 3.11
    goes on adding from left to right, and later versions compensate.
    The sum of no float is the integer [0], here the float zero, which
    behaves the same in the one place the program uses it. *)
Definition sum (compensated : bool) (l : list float) : float :=
  match l with
  | [] => F64.zero
  | x :: l' =>
      let s := F64.add F64.zero x in
      if compensated then sum_compensated s F64.zero l'
      else fold_left F64.add l' s
  end.

(** The tolerance [1e-5] of the weight check. *)
Definition tolerance : float := Eval vm_compute in F64.of_decimal false 1 (-5).

(** ** [load_criteria] *)

(** The body of [load_criteria] once the document is read. *)
Definition load_criteria_data (compensated : bool) (data : document)
  : outcome (list Criterion * Z * Z) :=
  let min_score := default 1 (scale_min data) in
  let max_score := default 5 (scale_max data) in
  let criteria :=
    map (fun c => {| cid := PyStr.strip (entry_id c);
                     name := PyStr.strip (entry_name c);
                     weight := entry_weight c |}) (raw_criteria data) in
  let total_weight := sum compensated (map weight criteria) in
  if F64.gtb (F64.abs (F64.sub total_weight F64.one)) tolerance
  then Raise (ValueError (Text "Criteria weights must sum to 1.0"))
  else
    let ids := map cid criteria in
    if decide (length ids ≠ size (list_to_set ids : gset string))
    then Raise (ValueError (Text "Criterion IDs must be unique"))
    else Return (criteria, min_score, max_score).

Definition load_criteria (compensated : bool) (w : world) (path : string)
  : outcome (list Criterion * Z * Z) :=
  match yaml_files w !! path with
  | None => Raise (FileNotFoundError path)
  | Some data => load_criteria_data compensated data
  end.

(** ** [load_scores] *)

(** The body of [load_scores] once the rows are read. *)
Definition load_scores_rows (rows : list row) : outcome (list row) :=
  match rows with
  | [] => Raise (ValueError (Text "scores.csv is empty"))
  | r :: _ =>
      match r !! "tool" with
      | None => Raise (ValueError (Text "scores.csv must contain a 'tool' column"))
      | Some _ => Return rows
      end
  end.

Definition load_scores (w : world) (path : string) : outcome (list row) :=
  match csv_files w !! path with
  | None => Raise (FileNotFoundError path)
  | Some rows => load_scores_rows rows
  end.

(** ** [parse_score] and [compute_results] *)

Definition parse_score (value : string) (min_score max_score : Z) : outcome float :=
  match PyFloat.of_string value with
  | None => Raise (ValueError (CouldNotConvert value))
  | Some score =>
      if F64.Z_le min_score score && F64.le_Z score max_score
      then Return score
      else Raise (ValueError (ScoreOutOfRange score))
  end.

(** [d[key]] *)
Definition getitem (d : row) (key : string) : outcome string :=
  match d !! key with
  | Some v => Return v
  | None => Raise (KeyError key)
  end.

(** The three running totals of the inner loop. *)
Record totals := { weighted_total : float; raw_total : float; max_raw : float }.

Definition totals0 : totals :=
  {| weighted_total := F64.zero; raw_total := F64.zero; max_raw := F64.zero |}.

(** The inner loop over the criteria, from the totals [t]. *)
Fixpoint score_criteria (criteria : list Criterion) (r : row)
    (min_score max_score : Z) (t : totals) : outcome totals :=
  match criteria with
  | [] => Return t
  | c :: criteria' =>
      value ← getitem r (cid c);
      score ← parse_score value min_score max_score;
      m ← float_of_int max_score;
      score_criteria criteria' r min_score max_score
        {| weighted_total := F64.add (weighted_total t) (F64.mul score (weight c));
           raw_total := F64.add (raw_total t) score;
           max_raw := F64.add (max_raw t) m |}
  end.

(** The body of the outer loop: the line of one row. *)
Definition compute_row (criteria : list Criterion) (r : row)
    (min_score max_score : Z) : outcome Result :=
  t ← getitem r "tool";
  s ← score_criteria criteria r min_score max_score totals0;
  q ← truediv (raw_total s) (max_raw s);
  let normalized := F64.mul q F64.hundred in
  Return {| tool := PyStr.strip t;
            weighted_score := PyFloat.format_f 3 (weighted_total s);
            normalized_percent := PyFloat.format_f 1 normalized;
            notes := default "" (r !! "notes") |}.

(** The outer loop: the lines in the order of the rows, or the first
    exception. *)
Fixpoint compute_rows (criteria : list Criterion) (rows : list row)
    (min_score max_score : Z) : outcome (list Result) :=
  match rows with
  | [] => Return []
  | r :: rows' =>
      x ← compute_row criteria r min_score max_score;
      xs ← compute_rows criteria rows' min_score max_score;
      Return (x :: xs)
  end.

(** *** [list.sort]

    [list.sort(key=..., reverse=True)] computes the key of every element,
    reverses the list, sorts it in ascending order of the keys with a
    stable sort that compares keys with [<] only, and reverses the
    outcome.  The stable sort is modelled by insertion: on keys that [<]
    orders every stable sort returns the same list.  With a NaN among
    the keys [<] orders nothing and the merge sort of CPython may
    arrange the list otherwise; the model is the code there only on the
    lists that CPython finds to be one ascending run and leaves as they
    are. *)

Section Sort.
Context {K A : Type} (lt : K -> K -> bool).

Fixpoint insert (x : K * A) (l : list (K * A)) : list (K * A) :=
  match l with
  | [] => [x]
  | y :: l' => if lt (fst y) (fst x) then y :: insert x l' else x :: l
  end.

Definition stable_sort (l : list (K * A)) : list (K * A) :=
  foldr insert [] l.

Definition sort_reverse (l : list (K * A)) : list (K * A) :=
  reverse (stable_sort (reverse l)).

(** [x] is not above [y]: the key of [y] is not less than that of [x]. *)
Definition not_above (x y : K * A) : Prop := lt y.1 x.1 = false.

End Sort.

(** Every key of [l] is one that the comparison orders. *)
Definition keys_ok {K A : Type} (ok : K -> Prop) (l : list (K * A)) : Prop :=
  Forall (fun p => ok p.1) l.

(** The key of the ranking: [float(r["weighted_score"])]. *)
Definition sort_key (r : Result) : outcome float :=
  match PyFloat.of_string (weighted_score r) with
  | Some k => Return k
  | None => Raise (ValueError (CouldNotConvert (weighted_score r)))
  end.

(** The keys of the whole list, computed before any comparison. *)
Fixpoint keyed (results : list Result) : outcome (list (float * Result)) :=
  match results with
  | [] => Return []
  | r :: results' =>
      k ← sort_key r;
      l ← keyed results';
      Return ((k, r) :: l)
  end.

Definition sort_results (results : list Result) : outcome (list Result) :=
  l ← keyed results;
  Return (map snd (sort_reverse F64.ltb l)).

Definition compute_results (criteria : list Criterion) (rows : list row)
    (min_score max_score : Z) : outcome (list Result) :=
  results ← compute_rows criteria rows min_score max_score;
  sort_results results.

(** ** The report writers *)

Definition LF : ascii := "010"%char.
Definition CR : ascii := "013"%char.
Definition DQUOTE : ascii := "034"%char.
Definition SLASH : ascii := "/"%char.

(** [os.path.dirname(path)] with the separator of POSIX. *)
Definition dirname (path : string) : string :=
  let is_sep c := Ascii.eqb c SLASH in
  let head := rev (PyStr.dropwhile (fun c => negb (is_sep c))
                     (rev (list_ascii_of_string path))) in
  string_of_list_ascii
    (if forallb is_sep head then head
     else rev (PyStr.dropwhile is_sep (rev head))).

(** [os.makedirs(d, exist_ok=True)]: the empty path cannot be made.  The
    world records the directory asked for.  The other failures of the
    file system (a file of that name, permissions) are left out of the
    model, here and in [write_file]: what the model returns is what the
    code does when the file system lets it. *)
Definition makedirs (d : string) (w : world) : outcome unit * world :=
  if String.eqb d EmptyString then (Raise (FileNotFoundError d), w)
  else (Return (),
        {| yaml_files := yaml_files w; csv_files := csv_files w;
           dirs := {[ d ]} ∪ dirs w; files := files w; stdout := stdout w |}).

(** Opening [path] for writing and writing [content]. *)
Definition write_file (path content : string) (w : world) : world :=
  {| yaml_files := yaml_files w; csv_files := csv_files w;
     dirs := dirs w; files := <[ path := content ]> (files w);
     stdout := stdout w |}.

(** [print(line)] *)
Definition print (line : string) (w : world) : world :=
  {| yaml_files := yaml_files w; csv_files := csv_files w;
     dirs := dirs w; files := files w; stdout := stdout w ++ [line] |}.

(** A field of the [excel] dialect with minimal quoting: quoted when it
    holds the delimiter, the quote character or a character of the line
    terminator, quote characters doubled. *)
Fixpoint csv_escape (s : string) : string :=
  match s with
  | String c s' =>
      if Ascii.eqb c DQUOTE then String c (String c (csv_escape s'))
      else String c (csv_escape s')
  | EmptyString => EmptyString
  end.

Definition csv_field (s : string) : string :=
  if PyStr.contains ","%char s || PyStr.contains DQUOTE s
     || PyStr.contains CR s || PyStr.contains LF s
  then String DQUOTE (csv_escape s) +:+ String DQUOTE EmptyString
  else s.

Definition csv_line (fields : list string) : string :=
  PyStr.join "," (map csv_field fields) +:+ String CR (String LF EmptyString).

Definition fieldnames : list string :=
  ["tool"; "weighted_score"; "normalized_percent"; "notes"].

Definition csv_text (results : list Result) : string :=
  csv_line fieldnames +:+
  String.concat EmptyString
    (map (fun r => csv_line [tool r; weighted_score r; normalized_percent r; notes r])
         results).

Definition write_csv (path : string) (results : list Result) (w : world)
  : outcome unit * world :=
  match makedirs (dirname path) w with
  | (Raise e, w1) => (Raise e, w1)
  | (Return _, w1) => (Return (), write_file path (csv_text results) w1)
  end.

Definition nl : string := String LF EmptyString.

(** The lines of the table, the first one ranked [i]. *)
Fixpoint markdown_rows (i : N) (results : list Result) : list string :=
  match results with
  | [] => []
  | r :: results' =>
      ("| " +:+ PyStr.of_N i +:+ " | " +:+ tool r +:+ " | " +:+ weighted_score r
       +:+ " | " +:+ normalized_percent r +:+ " | " +:+ notes r +:+ " |" +:+ nl)
      :: markdown_rows (N.succ i) results'
  end.

Definition markdown_text (results : list Result) : string :=
  String.concat EmptyString
    (["# Tool Evaluation Results" +:+ nl +:+ nl;
      "| Rank | Tool | Weighted Score | Normalized (0-100) | Notes | " +:+ nl;
      "|---:|---|---:|---:|---|" +:+ nl]
     ++ markdown_rows 1 results).

Definition write_markdown (path : string) (results : list Result) (w : world)
  : outcome unit * world :=
  match makedirs (dirname path) w with
  | (Raise e, w1) => (Raise e, w1)
  | (Return _, w1) => (Return (), write_file path (markdown_text results) w1)
  end.

(** ** [main] *)

Definition main (compensated : bool) (w : world) : outcome unit * world :=
  match load_criteria compensated w "criteria.yaml" with
  | Raise e => (Raise e, w)
  | Return (criteria, min_score, max_score) =>
      match load_scores w "scores.csv" with
      | Raise e => (Raise e, w)
      | Return rows =>
          match compute_results criteria rows min_score max_score with
          | Raise e => (Raise e, w)
          | Return results =>
              match write_csv "output/results.csv" results w with
              | (Raise e, w1) => (Raise e, w1)
              | (Return _, w1) =>
                  match write_markdown "output/results.md" results w1 with
                  | (Raise e, w2) => (Raise e, w2)
                  | (Return _, w2) => (Return (), print "Evaluation complete." w2)
                  end
              end
          end
      end
  end.

(** ** Worked inputs *)

(** The float nearest to a decimal literal, as Python reads [0.6]. *)
Definition lit (m : Z) (e : Z) : float := F64.of_decimal false m e.

Definition criterion (i n : string) (w : float) : Criterion :=
  {| cid := i; name := n; weight := w |}.

(** A row with a [tool] column and the given score columns. *)
Definition row_of (t : string) (cells : list (string * string)) : row :=
  <[ "tool" := t ]> (list_to_map cells).

Definition rubric (lo hi : option Z) (l : list (string * float)) : document :=
  {| scale_min := lo; scale_max := hi;
     raw_criteria :=
       map (fun p => {| entry_id := p.1; entry_name := p.1; entry_weight := p.2 |}) l |}.

(** A world that holds the two input files and nothing else. *)
Definition world_of (data : document) (rows : list row) : world :=
  {| yaml_files := {[ "criteria.yaml" := data ]};
     csv_files := {[ "scores.csv" := rows ]};
     dirs := ∅; files := ∅; stdout := [] |}.

(** ** Notions used in the statements *)

(** The ids of the rubric as [load_criteria] compares them. *)
Definition trimmed_ids (data : document) : list string :=
  map (fun c => PyStr.strip (entry_id c)) (raw_criteria data).

(** The sum of the weights as [load_criteria] computes it. *)
Definition total_weight (compensated : bool) (data : document) : float :=
  sum compensated (map entry_weight (raw_criteria data)).

(** The outcome of the weight check: [abs(total_weight - 1.0) > 1e-5]. *)
Definition weights_off (compensated : bool) (data : document) : bool :=
  F64.gtb (F64.abs (F64.sub (total_weight compensated data) F64.one)) tolerance.

Definition weights_error : exn := ValueError (Text "Criteria weights must sum to 1.0").
Definition ids_error : exn := ValueError (Text "Criterion IDs must be unique").


(** [n] additions of [m] to [x], as the loop accumulates a total. *)
Definition accumulate (m : float) (n : nat) (x : float) : float :=
  Nat.iter n (fun a => F64.add a m) x.



(** The numeric value of the weighted score of a line, the key of the
    ranking; a NaN where the text is no number. *)
Definition key_of (r : Result) : float :=
  default S754_nan (PyFloat.of_string (weighted_score r)).

(** [a] is ranked no lower than [b]: the value of [b] is at most that
    of [a]. *)
Definition ranks_above (a b : Result) : Prop :=
  F64.leb (key_of b) (key_of a) = true.

(** The weighted score of [r] equals the float [k]. *)
Definition tied_at (k : float) (r : Result) : Prop :=
  F64.eqb (key_of r) k = true.

#[global] Instance tied_at_dec (k : float) (r : Result) : Decision (tied_at k r).
Proof. unfold tied_at. apply _. Defined.

(** The least exponent of binary64. *)
Definition emin64 : Z := -1074.

(** A float that is neither a zero nor a NaN, of sign [s], whose
    exponent is not below the least one. *)
Definition signed_nonzero (s : bool) (x : float) : Prop :=
  match x with
  | S754_finite s' _ e => s' = s /\ emin64 <= e
  | S754_infinity s' => s' = s
  | _ => False
  end.

(** The place of a float that is not a NaN in the order: its class (the
    infinities outermost, the zeros in the middle), then its exponent
    and its mantissa, both counted downwards for a negative float. *)
Definition cls (x : float) : Z :=
  match x with
  | S754_infinity s => if s then -2 else 2
  | S754_finite s _ _ => if s then -1 else 1
  | _ => 0
  end.

Definition expo (x : float) : Z :=
  match x with
  | S754_finite s _ e => if s then - e else e
  | _ => 0
  end.

Definition mant (x : float) : Z :=
  match x with
  | S754_finite s m _ => if s then Zneg m else Zpos m
  | _ => 0
  end.

Definition below (x y : float) : Prop :=
  cls x < cls y \/
  (cls x = cls y /\ (expo x < expo y \/ (expo x = expo y /\ mant x < mant y))).

Definition level (x y : float) : Prop :=
  cls x = cls y /\ expo x = expo y /\ mant x = mant y.

(** A run of decimal digits. *)
Definition digits (l : list ascii) : Prop := Forall (fun c => PyStr.isdigit c = true) l.

(** A number in fixed notation with [p] decimals: an optional minus
    sign, at least one digit, a point and exactly [p] digits. *)
Definition fixed_text (p : nat) (s : string) : Prop :=
  exists (sg : bool) (I F : list ascii),
    list_ascii_of_string s = (if sg then ["-"%char] else []) ++ I ++ "."%char :: F /\
    I <> [] /\ digits I /\ digits F /\ length F = p.

(** What [format_f] prints with [p] decimals. *)
Definition number_text (p : nat) (s : string) : Prop :=
  s = "nan" \/ s = "inf" \/ s = "-inf" \/ fixed_text p s.

(** * Properties *)

(** ** Constants *)

(** The constants of the model are the ones of the hardware: [0.6] and
    [0.4] are the quotients [6/10] and [4/10] rounded once, [1e-5] is
    [1/100000]. *)
Lemma constants_agree :
  lit 6 (-1) = Prim2SF (6 / 10)%float /\
  lit 4 (-1) = Prim2SF (4 / 10)%float /\
  tolerance = Prim2SF (1 / 100000)%float /\
  F64.one = Prim2SF 1%float /\
  F64.hundred = Prim2SF 100%float.
Proof. repeat split; vm_compute; reflexivity. Qed.

(** ** The round trip of the specification *)

(** C3: with the criteria [a] of weight 0.6 and [b] of weight 0.4, the
    scale 1 to 5 and the single row [tool=X, a=5, b=1], the scorer
    returns one line whose weighted score is the text [3.400] and whose
    normalized percent is the text [60.0]. *)
Theorem round_trip_example (na nb : string) :
  compute_results
    [criterion "a" na (lit 6 (-1)); criterion "b" nb (lit 4 (-1))]
    [row_of "X" [("a", "5"); ("b", "1")]] 1 5
  = Return [{| tool := "X"; weighted_score := "3.400";
               normalized_percent := "60.0"; notes := "" |}].
Proof. vm_compute. reflexivity. Qed.

(** ** The score loader *)

(** C7, the message as the claim words it: the loader does not raise it. *)
Lemma empty_scores_message_differs :
  load_scores_rows [] <> Raise (ValueError (Text "scores source is empty")).
Proof. vm_compute. discriminate. Qed.

(** C7, amended: a scores source with no data row makes the loader raise
    [ValueError] with the message [scores.csv is empty]; no rows are
    returned. *)
Theorem empty_scores_rejected (w : world) (path : string) :
  csv_files w !! path = Some [] ->
  load_scores w path = Raise (ValueError (Text "scores.csv is empty")).
Proof. intros H. unfold load_scores. rewrite H. reflexivity. Qed.

Lemma empty_scores_rejected_witness :
  load_scores (world_of (rubric None None []) []) "scores.csv"
  = Raise (ValueError (Text "scores.csv is empty")).
Proof. apply empty_scores_rejected. vm_compute. reflexivity. Defined.

(** ** The driver *)

(** A row that fails makes the outer loop raise: the exception is the
    one of the first row that fails. *)
Lemma compute_rows_raises (criteria : list Criterion) (lo hi : Z)
    (rows : list row) (r : row) :
  r ∈ rows -> raised (compute_row criteria r lo hi) = true ->
  exists r' e, r' ∈ rows /\ compute_row criteria r' lo hi = Raise e /\
               compute_rows criteria rows lo hi = Raise e.
Proof.
  induction rows as [| r0 rows IH]; intros Hin Hr; [inversion Hin |].
  simpl. destruct (compute_row criteria r0 lo hi) as [x |] eqn:H0.
  - apply elem_of_cons in Hin as [-> | Hin]; [rewrite H0 in Hr; discriminate |].
    destruct (IH Hin Hr) as (r' & e & Hin' & Hr' & Hrows).
    exists r', e. rewrite Hrows. repeat split; [right; exact Hin' | exact Hr'].
  - exists r0, e. repeat split; [left | exact H0].
Qed.

(** The driver stops at the exception of the scorer, the world untouched. *)
Lemma main_scoring_raises (compensated : bool) (w : world)
    (criteria : list Criterion) (lo hi : Z) (rows : list row) (e : exn) :
  load_criteria compensated w "criteria.yaml" = Return (criteria, lo, hi) ->
  load_scores w "scores.csv" = Return rows ->
  compute_results criteria rows lo hi = Raise e ->
  main compensated w = (Raise e, w).
Proof.
  intros Hc Hs Hr. unfold main. rewrite Hc, Hs, Hr. reflexivity.
Qed.

(** The writers run only after the scorer has returned: a run that
    changes the world has scored every row. *)
Lemma writers_run_after_scoring (compensated : bool) (w : world) :
  (main compensated w).2 <> w ->
  exists criteria lo hi rows results,
    load_criteria compensated w "criteria.yaml" = Return (criteria, lo, hi) /\
    load_scores w "scores.csv" = Return rows /\
    compute_results criteria rows lo hi = Return results.
Proof.
  unfold main.
  destruct (load_criteria compensated w "criteria.yaml")
    as [[[criteria lo] hi] |] eqn:Hc; [| intros H; contradiction].
  destruct (load_scores w "scores.csv") as [rows |] eqn:Hs;
    [| intros H; contradiction].
  destruct (compute_results criteria rows lo hi) as [results |] eqn:Hr;
    [| intros H; contradiction].
  intros _. exists criteria, lo, hi, rows, results. auto.
Qed.

(** C8: when the scoring of some row fails, be it a cell that is no
    number, a score out of range or a missing column, [main] raises the
    exception of the first such row and leaves the world as it found it:
    no directory is made, no file is written and nothing is printed. *)
Theorem scoring_failure_writes_nothing (compensated : bool) (w : world)
    (criteria : list Criterion) (min_score max_score : Z) (rows : list row)
    (r : row) :
  load_criteria compensated w "criteria.yaml" = Return (criteria, min_score, max_score) ->
  load_scores w "scores.csv" = Return rows ->
  r ∈ rows ->
  raised (compute_row criteria r min_score max_score) = true ->
  exists r' e,
    r' ∈ rows /\ compute_row criteria r' min_score max_score = Raise e /\
    main compensated w = (Raise e, w).
Proof.
  intros Hc Hs Hin Hr.
  destruct (compute_rows_raises _ _ _ _ _ Hin Hr) as (r' & e & Hin' & Hr' & Hrows).
  exists r', e. repeat split; [exact Hin' | exact Hr' |].
  apply (main_scoring_raises _ _ criteria min_score max_score rows); [exact Hc | exact Hs |].
  unfold compute_results. rewrite Hrows. reflexivity.
Qed.

Lemma scoring_failure_writes_nothing_witness :
  let data := rubric None None [("a", lit 1 0)] in
  let rows := [row_of "X" [("a", "5")]; row_of "Y" [("a", "6")]] in
  exists r' e,
    r' ∈ rows /\ compute_row [criterion "a" "a" (lit 1 0)] r' 1 5 = Raise e /\
    main false (world_of data rows) = (Raise e, world_of data rows).
Proof.
  intros data rows.
  apply (scoring_failure_writes_nothing false (world_of data rows)
           [criterion "a" "a" (lit 1 0)] 1 5 rows (row_of "Y" [("a", "6")]));
    [vm_compute; reflexivity | vm_compute; reflexivity
    | right; left | vm_compute; reflexivity].
Defined.

(** ** The criteria loader *)

Lemma criteria_ids (l : list entry) :
  map cid (map (fun c => {| cid := PyStr.strip (entry_id c);
                            name := PyStr.strip (entry_name c);
                            weight := entry_weight c |}) l)
  = map (fun c => PyStr.strip (entry_id c)) l.
Proof. induction l as [|c l IH]; simpl; [reflexivity | by rewrite IH]. Qed.

Lemma criteria_weights (l : list entry) :
  map weight (map (fun c => {| cid := PyStr.strip (entry_id c);
                               name := PyStr.strip (entry_name c);
                               weight := entry_weight c |}) l)
  = map entry_weight l.
Proof. induction l as [|c l IH]; simpl; [reflexivity | by rewrite IH]. Qed.

(** A set built from a list is no larger than the list, and as large
    only when the list repeats nothing. *)
Lemma size_list_to_set_le (l : list string) :
  (size (list_to_set l : gset string) <= length l)%nat /\
  (size (list_to_set l : gset string) = length l -> NoDup l).
Proof.
  induction l as [|x l [IHle IHeq]].
  - rewrite list_to_set_nil, size_empty. split; [simpl; lia | intros _; constructor].
  - rewrite list_to_set_cons. simpl length.
    destruct (decide (x ∈ l)) as [Hin | Hnin].
    + assert (Hset : ({[ x ]} ∪ list_to_set l : gset string) = list_to_set l).
      { apply subseteq_union_1_L, singleton_subseteq_l, elem_of_list_to_set, Hin. }
      rewrite Hset. split; lia.
    + rewrite size_union by set_solver. rewrite size_singleton.
      split; [lia |]. intros Heq. constructor; [exact Hnin |].
      apply IHeq. lia.
Qed.

(** The two checks of the loader, in the order of the code. *)
Lemma load_criteria_data_unfold (compensated : bool) (data : document) :
  load_criteria_data compensated data =
  if weights_off compensated data then Raise weights_error
  else if decide (NoDup (trimmed_ids data))
       then Return (map (fun c => {| cid := PyStr.strip (entry_id c);
                                     name := PyStr.strip (entry_name c);
                                     weight := entry_weight c |}) (raw_criteria data),
                    default 1 (scale_min data), default 5 (scale_max data))
       else Raise ids_error.
Proof.
  unfold load_criteria_data, weights_off, total_weight, trimmed_ids.
  rewrite criteria_weights, criteria_ids.
  destruct (F64.gtb _ _); [reflexivity |].
  destruct (size_list_to_set_le
              (map (fun c => PyStr.strip (entry_id c)) (raw_criteria data)))
    as [_ Heq].
  repeat case_decide; try reflexivity.
  - exfalso. match goal with H : _ ≠ _ |- _ => apply H end.
    symmetry. apply size_list_to_set. assumption.
  - exfalso. match goal with H : ¬ NoDup _ |- _ => apply H end.
    apply Heq. symmetry. assumption.
Qed.

(** Whatever is accepted has passed both checks. *)
Lemma load_criteria_data_accepts (compensated : bool) (data : document)
    (criteria : list Criterion) (min_score max_score : Z) :
  load_criteria_data compensated data = Return (criteria, min_score, max_score) ->
  weights_off compensated data = false /\ NoDup (trimmed_ids data) /\
  map cid criteria = trimmed_ids data /\
  min_score = default 1 (scale_min data) /\ max_score = default 5 (scale_max data).
Proof.
  rewrite load_criteria_data_unfold.
  destruct (weights_off compensated data); [discriminate |].
  case_decide; [| discriminate].
  intros [= <- <- <-]. rewrite criteria_ids. auto.
Qed.

(** C6, the claim at a rubric that repeats an id and whose weights sum to
    0.98: the loader raises the error of the weight check, which runs
    first, not the one about ids. *)
Lemma duplicate_ids_weight_error_first :
  let data := rubric None None [("accuracy", lit 58 (-2)); ("accuracy", lit 4 (-1))] in
  ~ NoDup (trimmed_ids data) /\
  load_criteria_data false data = Raise weights_error /\
  load_criteria_data true data = Raise weights_error /\
  weights_error <> ValueError (Text "criterion IDs must be unique") /\
  weights_error <> ids_error.
Proof.
  split; [| repeat split; try (vm_compute; reflexivity); discriminate].
  vm_compute. inversion 1 as [| ? ? Hn _]; subst. apply Hn. left.
Qed.

(** C6, amended: a rubric in which some trimmed id occurs more than once
    is always rejected with a [ValueError]; its message is [Criteria
    weights must sum to 1.0] when the weight check fails, and [Criterion
    IDs must be unique] otherwise. *)
Theorem duplicate_ids_rejected (compensated : bool) (data : document) :
  ~ NoDup (trimmed_ids data) ->
  load_criteria_data compensated data =
  Raise (if weights_off compensated data then weights_error else ids_error).
Proof.
  intros Hdup. rewrite load_criteria_data_unfold.
  destruct (weights_off compensated data); [reflexivity |].
  case_decide; [contradiction | reflexivity].
Qed.

Lemma duplicate_ids_rejected_witness :
  load_criteria_data false
    (rubric None None [("accuracy", lit 6 (-1)); ("accuracy", lit 4 (-1))])
  = Raise ids_error.
Proof.
  apply (duplicate_ids_rejected false
           (rubric None None [("accuracy", lit 6 (-1)); ("accuracy", lit 4 (-1))])).
  vm_compute. inversion 1 as [| ? ? Hn _]; subst. apply Hn. left.
Defined.

(** C10: ids are compared after trimming, so a rubric with two entries
    whose ids are equal once trimmed is rejected, and with the error
    about ids when the weights pass their check. *)
Theorem ids_trimmed_before_uniqueness (compensated : bool) (data : document)
    (i j : nat) (e1 e2 : entry) :
  i <> j ->
  raw_criteria data !! i = Some e1 ->
  raw_criteria data !! j = Some e2 ->
  PyStr.strip (entry_id e1) = PyStr.strip (entry_id e2) ->
  raised (load_criteria_data compensated data) = true /\
  (weights_off compensated data = false ->
   load_criteria_data compensated data = Raise ids_error).
Proof.
  intros Hij H1 H2 Heq.
  assert (Hdup : ~ NoDup (trimmed_ids data)).
  { intros Hnd. apply Hij.
    apply (proj1 (NoDup_alt _) Hnd i j (PyStr.strip (entry_id e1))).
    - unfold trimmed_ids. rewrite list_lookup_fmap, H1. reflexivity.
    - unfold trimmed_ids. rewrite list_lookup_fmap, H2, Heq. reflexivity. }
  rewrite load_criteria_data_unfold.
  destruct (weights_off compensated data); [split; [reflexivity | discriminate] |].
  case_decide; [contradiction |]. split; reflexivity.
Qed.

Lemma ids_trimmed_before_uniqueness_witness :
  let data := rubric None None [("accuracy", lit 6 (-1)); (" accuracy ", lit 4 (-1))] in
  raised (load_criteria_data true data) = true /\
  (weights_off true data = false -> load_criteria_data true data = Raise ids_error).
Proof.
  intros data.
  apply (ids_trimmed_before_uniqueness true data 0 1
           {| entry_id := "accuracy"; entry_name := "accuracy"; entry_weight := lit 6 (-1) |}
           {| entry_id := " accuracy "; entry_name := " accuracy "; entry_weight := lit 4 (-1) |});
    [lia | reflexivity | reflexivity | vm_compute; reflexivity].
Defined.

(** ** Facts about binary64

    The results of the arithmetic that the claims rest on, proved on the
    integers of the specification. *)

Section Rounding.

(** A positive number of [d] binary digits is at least [2^(d-1)]. *)
Lemma digits2_pos_le (p : positive) : 2 ^ Zpos (digits2_pos p) <= 2 * Zpos p.
Proof.
  induction p as [p IH | p IH |]; simpl digits2_pos;
    rewrite ?Pos2Z.inj_succ, ?Z.pow_succ_r by lia; lia.
Qed.

(** One step to the right at least halves. *)
Lemma shr_1_ge (k : Z) (mrs : shr_record) :
  2 * k <= shr_m mrs -> k <= shr_m (shr_1 mrs).
Proof.
  destruct mrs as [m r s]; simpl.
  destruct m as [| [p | p |] | [p | p |]]; simpl; lia.
Qed.

Lemma iter_shr_1_ge (p : positive) :
  forall (k : Z) (mrs : shr_record),
    2 ^ Zpos p * k <= shr_m mrs -> k <= shr_m (SpecFloat.iter_pos shr_1 p mrs).
Proof.
  induction p as [p IH | p IH |]; intros k mrs Hk; simpl SpecFloat.iter_pos.
  - apply IH, IH, shr_1_ge.
    rewrite (Pos2Z.inj_xI p), Z.pow_add_r, Z.pow_mul_r, Z.pow_1_r in Hk by lia.
    replace (2 ^ 2) with 4 in Hk by reflexivity.
    assert (H4 : 4 ^ Zpos p = 2 ^ Zpos p * 2 ^ Zpos p).
    { rewrite <- Z.pow_mul_l. reflexivity. }
    rewrite H4 in Hk. lia.
  - apply IH, IH.
    rewrite (Pos2Z.inj_xO p), Z.pow_mul_r in Hk by lia.
    replace (2 ^ 2) with 4 in Hk by reflexivity.
    assert (H4 : 4 ^ Zpos p = 2 ^ Zpos p * 2 ^ Zpos p).
    { rewrite <- Z.pow_mul_l. reflexivity. }
    rewrite H4 in Hk. lia.
  - apply shr_1_ge. change (2 ^ 1) with 2 in Hk. lia.
Qed.

Lemma shr_m_of_loc (m : Z) (l : location) : shr_m (shr_record_of_loc m l) = m.
Proof. destruct l as [| []]; reflexivity. Qed.

(** Shifting a positive mantissa to its place keeps it positive, once
    its exponent is not below the least one. *)
Lemma shr_fexp_pos (m e : Z) (l : location) :
  0 < m -> emin64 <= e ->
  0 < shr_m (shr_fexp 53 1024 m e l).1 /\ emin64 <= (shr_fexp 53 1024 m e l).2.
Proof.
  intros Hm He. unfold shr_fexp, shr.
  destruct m as [| p |]; try lia. simpl Zdigits2.
  pose proof (digits2_pos_le p) as Hd.
  set (d := Zpos (digits2_pos p)) in *.
  assert (Hfexp : fexp 53 1024 (d + e) = Z.max (d + e - 53) emin64) by reflexivity.
  rewrite Hfexp.
  destruct (Z.max (d + e - 53) emin64 - e) as [| q |] eqn:Hn; simpl.
  - rewrite shr_m_of_loc. lia.
  - split; [| unfold emin64 in *; lia].
    cut (1 <= shr_m (SpecFloat.iter_pos shr_1 q (shr_record_of_loc (Zpos p) l)));
      [lia |].
    apply iter_shr_1_ge. rewrite shr_m_of_loc.
    assert (Hq : Zpos q <= d - 1) by (unfold emin64 in *; lia).
    assert (Hpow : 2 ^ Zpos q <= 2 ^ (d - 1)) by (apply Z.pow_le_mono_r; lia).
    assert (Hd' : 2 ^ d = 2 * 2 ^ (d - 1)).
    { rewrite <- Z.pow_succ_r by lia. f_equal. lia. }
    lia.
  - rewrite shr_m_of_loc. lia.
Qed.

Lemma round_nearest_even_ge (m : Z) (l : location) : m <= round_nearest_even m l.
Proof. destruct l as [| []]; simpl; try destruct (Z.even m); lia. Qed.

Lemma binary_round_aux_nonzero (sx : bool) (mx ex : Z) (lx : location) :
  0 < mx -> emin64 <= ex ->
  signed_nonzero sx (binary_round_aux 53 1024 sx mx ex lx).
Proof.
  intros Hm He. unfold binary_round_aux.
  destruct (shr_fexp_pos mx ex lx Hm He) as [Hm1 He1].
  destruct (shr_fexp 53 1024 mx ex lx) as [mrs' e']. simpl in Hm1, He1.
  pose proof (round_nearest_even_ge (shr_m mrs') (loc_of_shr_record mrs')) as Hr.
  set (m1 := round_nearest_even (shr_m mrs') (loc_of_shr_record mrs')) in *.
  assert (Hm1' : 0 < m1) by lia.
  destruct (shr_fexp_pos m1 e' loc_Exact Hm1' He1) as [Hm2 He2].
  destruct (shr_fexp 53 1024 m1 e' loc_Exact) as [mrs'' e'']. simpl in Hm2, He2.
  destruct (shr_m mrs'') as [| m |]; try lia.
  destruct (e'' <=? 1024 - 53); simpl; auto.
Qed.

Lemma binary_round_nonzero (sx : bool) (mx : positive) (ex : Z) :
  emin64 <= ex -> signed_nonzero sx (binary_round 53 1024 sx mx ex).
Proof.
  intros He. unfold binary_round, shl_align.
  assert (Hf : emin64 <= fexp 53 1024 (Zpos (digits2_pos mx) + ex)).
  { unfold fexp, SpecFloat.emin, emin64. lia. }
  destruct (fexp 53 1024 (Zpos (digits2_pos mx) + ex) - ex);
    apply binary_round_aux_nonzero; lia.
Qed.

(** A non-zero integer rounds to a float that is not a zero. *)
Lemma round_Z_nonzero (z : Z) : z <> 0 -> signed_nonzero (z <? 0) (F64.round_Z z).
Proof.
  intros Hz. unfold F64.round_Z, binary_normalize.
  destruct z as [| p | p]; [contradiction | |];
    apply binary_round_nonzero; unfold emin64; lia.
Qed.

(** Floats of one sign do not cancel. *)
Lemma add_nonzero (s : bool) (x y : float) :
  signed_nonzero s x -> signed_nonzero s y -> signed_nonzero s (F64.add x y).
Proof.
  destruct x as [| sx | | sx mx ex], y as [| sy | | sy my ey]; simpl; try tauto.
  - intros -> ->. destruct s; reflexivity.
  - intros [-> Hx] [-> Hy]. unfold binary_normalize.
    destruct s; simpl cond_Zopp; simpl Z.add;
      apply binary_round_nonzero; lia.
Qed.

Lemma add_zero_l (s : bool) (x y : float) :
  F64.is_zero x = true -> signed_nonzero s y -> F64.add x y = y.
Proof. destruct x, y; simpl; tauto || discriminate || reflexivity. Qed.


End Rounding.

(** ** The inner loop of the scorer *)

Lemma float_of_int_round (n : Z) (m : float) :
  float_of_int n = Return m -> m = F64.round_Z n.
Proof.
  unfold float_of_int. destruct (F64.round_Z n); intros [= <-] || discriminate;
    reflexivity.
Qed.


(** One turn of the loop that returns has added the float of [max_score]
    to [max_raw], and the score of the cell to [raw_total]. *)
Lemma score_criteria_step (c : Criterion) (cs : list Criterion) (r : row)
    (lo hi : Z) (t s : totals) :
  score_criteria (c :: cs) r lo hi t = Return s ->
  exists value score m,
    r !! cid c = Some value /\ parse_score value lo hi = Return score /\
    float_of_int hi = Return m /\
    score_criteria cs r lo hi
      {| weighted_total := F64.add (weighted_total t) (F64.mul score (weight c));
         raw_total := F64.add (raw_total t) score;
         max_raw := F64.add (max_raw t) m |} = Return s.
Proof.
  simpl. unfold getitem.
  destruct (r !! cid c) as [value |]; [| discriminate]. simpl.
  destruct (parse_score value lo hi) as [score |] eqn:Hp; [| discriminate]. simpl.
  destruct (float_of_int hi) as [m |] eqn:Hm; [| discriminate]. simpl.
  intros H. exists value, score, m. auto.
Qed.

Lemma accumulate_succ_r (m : float) (n : nat) (x : float) :
  accumulate m (S n) x = accumulate m n (F64.add x m).
Proof. unfold accumulate. rewrite Nat.iter_succ_r. reflexivity. Qed.

Lemma score_criteria_max_raw (cs : list Criterion) (r : row) (lo hi : Z) (m : float) :
  float_of_int hi = Return m ->
  forall t s, score_criteria cs r lo hi t = Return s ->
    max_raw s = accumulate m (length cs) (max_raw t).
Proof.
  intros Hm. induction cs as [| c cs IH]; intros t s Hs.
  - injection Hs as <-. reflexivity.
  - destruct (score_criteria_step _ _ _ _ _ _ _ Hs)
      as (value & score & m' & _ & _ & Hm' & Hrest).
    rewrite Hm in Hm'. injection Hm' as <-.
    rewrite (IH _ _ Hrest). simpl length. rewrite accumulate_succ_r. reflexivity.
Qed.



(** A total of [n >= 1] copies of the float of a non-zero integer is not
    a zero: it is finite or infinite, of the sign of the integer. *)
Lemma accumulate_nonzero (s : bool) (m : float) (n : nat) :
  signed_nonzero s m -> signed_nonzero s (accumulate m (S n) F64.zero).
Proof.
  intros Hm. induction n as [| n IH].
  - change (accumulate m 1 F64.zero) with (F64.add F64.zero m).
    rewrite (add_zero_l s); [exact Hm | reflexivity | exact Hm].
  - change (accumulate m (S (S n)) F64.zero)
      with (F64.add (accumulate m (S n) F64.zero) m).
    apply add_nonzero; assumption.
Qed.

(** A total of copies of the float zero is a zero. *)
Lemma accumulate_zero (n : nat) :
  accumulate (F64.round_Z 0) n F64.zero = F64.zero.
Proof.
  induction n as [| n IH]; [reflexivity |].
  change (accumulate (F64.round_Z 0) (S n) F64.zero)
    with (F64.add (accumulate (F64.round_Z 0) n F64.zero) (F64.round_Z 0)).
  rewrite IH. reflexivity.
Qed.

(** The rubric that passes the weight check has a criterion. *)
Lemma weights_ok_nonempty (compensated : bool) (data : document) :
  weights_off compensated data = false -> raw_criteria data <> [].
Proof.
  unfold weights_off, total_weight. intros H Hnil. rewrite Hnil in H.
  destruct compensated; vm_compute in H; discriminate.
Qed.

Lemma loaded_criteria_nonempty (compensated : bool) (data : document)
    (criteria : list Criterion) (lo hi : Z) :
  load_criteria_data compensated data = Return (criteria, lo, hi) ->
  exists n, length criteria = S n.
Proof.
  intros H. destruct (load_criteria_data_accepts _ _ _ _ _ H) as (Hw & _ & Hids & _).
  pose proof (weights_ok_nonempty _ _ Hw) as Hne.
  apply (f_equal length) in Hids. unfold trimmed_ids in Hids.
  rewrite !length_map in Hids.
  destruct (raw_criteria data); [contradiction |].
  exists (length l). rewrite Hids. reflexivity.
Qed.

(** C9, the claim at a validated rubric whose scale ends at zero: the
    division of the scorer is by zero. *)
Lemma zero_scale_divides_by_zero :
  let data := rubric (Some 0) (Some 0) [("a", lit 1 0)] in
  let r := row_of "X" [("a", "0")] in
  load_criteria_data false data = Return ([criterion "a" "a" (lit 1 0)], 0, 0) /\
  load_criteria_data true data = Return ([criterion "a" "a" (lit 1 0)], 0, 0) /\
  (exists s, score_criteria [criterion "a" "a" (lit 1 0)] r 0 0 totals0 = Return s /\
             F64.is_zero (max_raw s) = true) /\
  compute_row [criterion "a" "a" (lit 1 0)] r 0 0 = Raise ZeroDivisionError /\
  compute_results [criterion "a" "a" (lit 1 0)] [r] 0 0 = Raise ZeroDivisionError.
Proof.
  repeat split; try (vm_compute; reflexivity).
  eexists. split; vm_compute; reflexivity.
Qed.

(** C9, amended: for a rubric that the loader accepted and a maximal
    score other than zero, whenever the inner loop completes for a row
    the total [max_raw] is not a zero, so the division that follows does
    not raise [ZeroDivisionError]. *)
Theorem max_raw_nonzero (compensated : bool) (data : document)
    (criteria : list Criterion) (min_score max_score : Z) (r : row) (s : totals) :
  load_criteria_data compensated data = Return (criteria, min_score, max_score) ->
  max_score <> 0 ->
  score_criteria criteria r min_score max_score totals0 = Return s ->
  F64.is_zero (max_raw s) = false /\
  truediv (raw_total s) (max_raw s) = Return (F64.div (raw_total s) (max_raw s)).
Proof.
  intros Hload Hmax Hs.
  destruct (loaded_criteria_nonempty _ _ _ _ _ Hload) as [n Hn].
  assert (Hz : F64.is_zero (max_raw s) = false).
  { destruct criteria as [| c cs]; [discriminate |].
    destruct (score_criteria_step _ _ _ _ _ _ _ Hs) as (_ & _ & m & _ & _ & Hm & _).
    rewrite (score_criteria_max_raw _ _ _ _ _ Hm _ _ Hs), Hn.
    pose proof (round_Z_nonzero _ Hmax) as Hnz.
    rewrite <- (float_of_int_round _ _ Hm) in Hnz.
    pose proof (accumulate_nonzero _ _ n Hnz) as Hacc. simpl max_raw.
    destruct (accumulate m (S n) F64.zero); simpl in Hacc; tauto || reflexivity. }
  split; [exact Hz |]. unfold truediv. rewrite Hz. reflexivity.
Qed.

Lemma max_raw_nonzero_witness :
  let s := {| weighted_total := lit 34 (-1); raw_total := lit 6 0; max_raw := lit 10 0 |} in
  F64.is_zero (max_raw s) = false /\
  truediv (raw_total s) (max_raw s) = Return (F64.div (raw_total s) (max_raw s)).
Proof.
  intros s.
  apply (max_raw_nonzero false
           (rubric None None [("a", lit 6 (-1)); ("b", lit 4 (-1))])
           [criterion "a" "a" (lit 6 (-1)); criterion "b" "b" (lit 4 (-1))]
           1 5 (row_of "X" [("a", "5"); ("b", "1")]) s);
    [vm_compute; reflexivity | lia | vm_compute; reflexivity].
Defined.

(** ** A row of full marks *)




(** ** The order of binary64

    A float that is not a NaN is placed by three integers: its class
    (the infinities outermost, the zeros in the middle), then its
    exponent and its mantissa, both counted downwards for a negative
    float.  The comparison of the specification is the lexicographic one
    of these places. *)

Section Order.

Lemma compare_places (x y : float) :
  F64.is_nan x = false -> F64.is_nan y = false ->
  match F64.compare x y with
  | Some Lt => below x y
  | Some Eq => level x y
  | Some Gt => below y x
  | None => False
  end.
Proof.
  unfold below, level.
  destruct x as [sx | sx | | sx mx ex], y as [sy | sy | | sy my ey];
    try discriminate; intros _ _; simpl;
    try (destruct sx; simpl; lia); try (destruct sy; simpl; lia);
    try (destruct sx, sy; simpl; lia).
  change (Pos.compare_cont Eq mx my) with (Pos.compare mx my).
  destruct sx, sy; simpl; try lia;
    destruct (Z.compare_spec ex ey); try lia;
    destruct (Pos.compare_spec mx my); simpl; lia.
Qed.

Lemma ltb_below (x y : float) :
  F64.is_nan x = false -> F64.is_nan y = false ->
  (F64.ltb x y = true <-> below x y).
Proof.
  intros Hx Hy. pose proof (compare_places x y Hx Hy) as H.
  unfold F64.ltb, SFltb. unfold F64.compare in H.
  destruct (SFcompare x y) as [[] |]; unfold below, level in *;
    split; intros; try discriminate; try reflexivity; lia.
Qed.

Lemma leb_not_below (x y : float) :
  F64.is_nan x = false -> F64.is_nan y = false ->
  (F64.leb x y = true <-> ~ below y x).
Proof.
  intros Hx Hy. pose proof (compare_places x y Hx Hy) as H.
  unfold F64.leb, SFleb. unfold F64.compare in H.
  destruct (SFcompare x y) as [[] |]; unfold below, level in *;
    split; intros; try discriminate; try reflexivity; lia.
Qed.

Lemma eqb_level (x y : float) :
  F64.is_nan x = false -> F64.is_nan y = false ->
  (F64.eqb x y = true <-> level x y).
Proof.
  intros Hx Hy. pose proof (compare_places x y Hx Hy) as H.
  unfold F64.eqb, SFeqb. unfold F64.compare in H.
  destruct (SFcompare x y) as [[] |]; unfold below, level in *;
    split; intros; try discriminate; try reflexivity; lia.
Qed.

(** Nothing equals a NaN. *)
Lemma eqb_nan_r (x y : float) : F64.eqb x y = true -> F64.is_nan y = false.
Proof. destruct x, y; try reflexivity; discriminate. Qed.

Lemma ltb_asym (a b : float) :
  F64.is_nan a = false -> F64.is_nan b = false ->
  F64.ltb a b = true -> F64.ltb b a = false.
Proof.
  intros Ha Hb H. apply (ltb_below _ _ Ha Hb) in H.
  apply not_true_is_false. rewrite (ltb_below _ _ Hb Ha).
  unfold below in *. lia.
Qed.

Lemma ltb_neg_trans (a b c : float) :
  F64.is_nan a = false -> F64.is_nan b = false -> F64.is_nan c = false ->
  F64.ltb a b = false -> F64.ltb b c = false -> F64.ltb a c = false.
Proof.
  intros Ha Hb Hc H1 H2.
  apply not_true_iff_false in H1, H2. apply not_true_iff_false.
  rewrite ltb_below in * by assumption. unfold below in *. lia.
Qed.

Lemma eqb_below (k a b : float) :
  F64.is_nan a = false -> F64.is_nan b = false ->
  F64.eqb a k = true -> F64.ltb b a = true -> F64.eqb b k = false.
Proof.
  intros Ha Hb H1 H2. pose proof (eqb_nan_r _ _ H1) as Hk.
  apply not_true_iff_false. apply (eqb_level _ _ Ha Hk) in H1.
  apply (ltb_below _ _ Hb Ha) in H2. rewrite (eqb_level _ _ Hb Hk).
  unfold below, level in *. lia.
Qed.

Lemma not_ltb_leb (a b : float) :
  F64.is_nan a = false -> F64.is_nan b = false ->
  F64.ltb a b = false -> F64.leb b a = true.
Proof.
  intros Ha Hb H. apply not_true_iff_false in H.
  rewrite (ltb_below _ _ Ha Hb) in H. apply (leb_not_below _ _ Hb Ha). exact H.
Qed.

End Order.

(** ** The stable sort

    The facts hold for keys that the comparison orders: among them [lt]
    is asymmetric and its complement is transitive. *)

Section SortFacts.
Context {K A : Type} (lt : K -> K -> bool) (ok : K -> Prop).
Hypothesis lt_asym :
  forall a b, ok a -> ok b -> lt a b = true -> lt b a = false.
Hypothesis lt_neg_trans :
  forall a b c, ok a -> ok b -> ok c ->
    lt a b = false -> lt b c = false -> lt a c = false.

Lemma insert_Permutation (x : K * A) (l : list (K * A)) : insert lt x l ≡ₚ x :: l.
Proof.
  induction l as [| y l IH]; simpl; [reflexivity |].
  destruct (lt y.1 x.1); [| reflexivity].
  rewrite IH. apply Permutation_swap.
Qed.

Lemma stable_sort_Permutation (l : list (K * A)) : stable_sort lt l ≡ₚ l.
Proof.
  induction l as [| x l IH]; simpl; [reflexivity |].
  rewrite insert_Permutation, IH. reflexivity.
Qed.

Lemma sort_reverse_Permutation (l : list (K * A)) : sort_reverse lt l ≡ₚ l.
Proof.
  unfold sort_reverse.
  rewrite reverse_Permutation, stable_sort_Permutation, reverse_Permutation.
  reflexivity.
Qed.

Lemma insert_sorted (x : K * A) (l : list (K * A)) :
  ok x.1 -> keys_ok ok l ->
  StronglySorted (not_above lt) l -> StronglySorted (not_above lt) (insert lt x l).
Proof.
  intros Hx Hl Hs. induction l as [| y l IH]; simpl.
  - repeat constructor.
  - apply StronglySorted_cons in Hs as [Hy Hs].
    apply Forall_cons in Hl as [Hoky Hl].
    destruct (lt y.1 x.1) eqn:Hyx.
    + apply StronglySorted_cons. split; [| apply IH; assumption].
      rewrite insert_Permutation. constructor; [| exact Hy].
      unfold not_above. apply lt_asym; assumption.
    + apply StronglySorted_cons. split; [| apply StronglySorted_cons; auto].
      constructor; [exact Hyx |].
      rewrite Forall_forall in Hy, Hl |- *. intros z Hz.
      unfold not_above in *.
      apply (lt_neg_trans z.1 y.1 x.1); auto.
Qed.

Lemma stable_sort_sorted (l : list (K * A)) :
  keys_ok ok l -> StronglySorted (not_above lt) (stable_sort lt l).
Proof.
  induction l as [| x l IH]; simpl; intros Hl; [constructor |].
  apply Forall_cons in Hl as [Hx Hl].
  apply insert_sorted; [exact Hx | | apply IH, Hl].
  unfold keys_ok. rewrite stable_sort_Permutation. exact Hl.
Qed.

Lemma StronglySorted_reverse (R : relation (K * A)) (l : list (K * A)) :
  StronglySorted R l -> StronglySorted (flip R) (reverse l).
Proof.
  induction 1 as [| x l Hs IH Hx]; [constructor |].
  rewrite reverse_cons. apply StronglySorted_app_2.
  - intros x1 x2 H1 H2. apply list_elem_of_singleton in H2 as ->.
    rewrite elem_of_reverse in H1. rewrite Forall_forall in Hx. apply Hx, H1.
  - exact IH.
  - repeat constructor.
Qed.

(** The list sorted in reverse goes down: no element is below a later one. *)
Lemma sort_reverse_sorted (l : list (K * A)) :
  keys_ok ok l -> StronglySorted (flip (not_above lt)) (sort_reverse lt l).
Proof.
  intros Hl. apply StronglySorted_reverse, stable_sort_sorted.
  unfold keys_ok. rewrite reverse_Permutation. exact Hl.
Qed.

(** Stability: the elements of one class of keys keep their order.  A
    class is a set of keys closed from below by nothing smaller. *)
Context (same : K -> bool).
Hypothesis same_below :
  forall a b, ok a -> ok b -> same a = true -> lt b a = true -> same b = false.

Lemma insert_filter (x : K * A) (l : list (K * A)) :
  ok x.1 -> keys_ok ok l ->
  filter (fun p => same p.1 = true) (insert lt x l)
  = filter (fun p => same p.1 = true) (x :: l).
Proof.
  intros Hx Hl. induction l as [| y l IH]; simpl; [reflexivity |].
  apply Forall_cons in Hl as [Hy Hl].
  destruct (lt y.1 x.1) eqn:Hyx; [| reflexivity].
  rewrite (filter_cons _ y (insert lt x l)), IH by exact Hl.
  rewrite !(filter_cons _ x), (filter_cons _ y l).
  destruct (decide (same x.1 = true)) as [Hsx | Hsx]; [| reflexivity].
  rewrite (same_below x.1 y.1 Hx Hy Hsx Hyx).
  destruct (decide (false = true)); [discriminate | reflexivity].
Qed.

Lemma stable_sort_filter (l : list (K * A)) :
  keys_ok ok l ->
  filter (fun p => same p.1 = true) (stable_sort lt l)
  = filter (fun p => same p.1 = true) l.
Proof.
  induction l as [| x l IH]; simpl; intros Hl; [reflexivity |].
  apply Forall_cons in Hl as [Hx Hl].
  rewrite insert_filter; [| exact Hx | unfold keys_ok; rewrite stable_sort_Permutation; exact Hl].
  rewrite !filter_cons, IH by exact Hl. reflexivity.
Qed.

Lemma sort_reverse_filter (l : list (K * A)) :
  keys_ok ok l ->
  filter (fun p => same p.1 = true) (sort_reverse lt l)
  = filter (fun p => same p.1 = true) l.
Proof.
  intros Hl. unfold sort_reverse.
  rewrite filter_reverse, stable_sort_filter, filter_reverse, reverse_involutive.
  - reflexivity.
  - unfold keys_ok. rewrite reverse_Permutation. exact Hl.
Qed.

End SortFacts.

(** ** The ranking *)

Lemma compute_rows_Forall2 (criteria : list Criterion) (lo hi : Z) (rows : list row) :
  forall results,
    compute_rows criteria rows lo hi = Return results ->
    Forall2 (fun r x => compute_row criteria r lo hi = Return x) rows results.
Proof.
  induction rows as [| r rows IH]; simpl; intros results H.
  - injection H as <-. constructor.
  - destruct (compute_row criteria r lo hi) as [x |] eqn:Hx; [| discriminate].
    simpl in H.
    destruct (compute_rows criteria rows lo hi) as [xs |]; [| discriminate].
    simpl in H. injection H as <-. constructor; auto.
Qed.

(** The keyed list pairs every line with its key, in order. *)
Lemma keyed_spec (results : list Result) :
  forall l, keyed results = Return l ->
    l.*2 = results /\ Forall (fun p => p.1 = key_of p.2) l.
Proof.
  induction results as [| r results IH]; simpl; intros l H.
  - injection H as <-. split; [reflexivity | constructor].
  - unfold sort_key in H. unfold key_of at 1.
    destruct (PyFloat.of_string (weighted_score r)) as [k |] eqn:Hk; [| discriminate].
    simpl in H. destruct (keyed results) as [l' |]; [| discriminate].
    simpl in H. injection H as <-. destruct (IH l' eq_refl) as [Hl Hf].
    split; [simpl; f_equal; exact Hl |].
    constructor; [simpl; unfold key_of; rewrite Hk; reflexivity | exact Hf].
Qed.

Lemma filter_keyed (k : float) (l : list (float * Result)) :
  Forall (fun p => p.1 = key_of p.2) l ->
  filter (tied_at k) l.*2 = (filter (fun p => F64.eqb p.1 k = true) l).*2.
Proof.
  induction 1 as [| p l Hp Hl IH]; [reflexivity |].
  rewrite fmap_cons, !filter_cons, IH.
  destruct (decide (tied_at k p.2)) as [H1 | H1],
           (decide (F64.eqb p.1 k = true)) as [H2 | H2];
    try reflexivity; exfalso; unfold tied_at in H1; rewrite <- Hp in H1;
    contradiction.
Qed.

Lemma sorted_keyed (l : list (float * Result)) :
  Forall (fun p => p.1 = key_of p.2) l ->
  Forall (fun p => F64.is_nan p.1 = false) l ->
  StronglySorted (flip (not_above F64.ltb)) l ->
  StronglySorted ranks_above l.*2.
Proof.
  intros Hk Hn Hs. induction Hs as [| p l Hs IH Hp]; [constructor |].
  apply Forall_cons in Hk as [Hkp Hk]. apply Forall_cons in Hn as [Hnp Hn].
  rewrite fmap_cons. constructor; [apply IH; assumption |].
  rewrite Forall_fmap, Forall_forall. intros q Hq. simpl.
  rewrite Forall_forall in Hp, Hk, Hn.
  unfold ranks_above. rewrite <- Hkp, <- (Hk q Hq).
  apply not_ltb_leb; [exact Hnp | apply Hn, Hq |]. apply (Hp q Hq).
Qed.

(** C5, the claim at a validated rubric with the weights 1e308, -1e308
    and 1 and three rows: the weighted total of the second row is
    [inf - inf], a NaN, every comparison of the sort with it is false, and
    the first line of the output has the value 1 while the third has the
    value 2.  (On the keys 1, NaN, 2 CPython reverses the list, finds by
    the comparisons [nan < 2] and [1 < nan], both false, that it is one
    ascending run, and reverses it back.) *)
Lemma ranking_unsorted_with_nan :
  let big := F64.of_decimal false 1 308 in
  let data := rubric None None
                [("a", big); ("b", F64.of_decimal true 1 308); ("c", lit 1 0)] in
  let criteria := [criterion "a" "a" big; criterion "b" "b" (F64.of_decimal true 1 308);
                   criterion "c" "c" (lit 1 0)] in
  let rows := [row_of "A" [("a", "1"); ("b", "1"); ("c", "1")];
               row_of "B" [("a", "5"); ("b", "5"); ("c", "1")];
               row_of "C" [("a", "1"); ("b", "1"); ("c", "2")]] in
  let out := [{| tool := "A"; weighted_score := "1.000";
                 normalized_percent := "20.0"; notes := "" |};
              {| tool := "B"; weighted_score := "nan";
                 normalized_percent := "73.3"; notes := "" |};
              {| tool := "C"; weighted_score := "2.000";
                 normalized_percent := "26.7"; notes := "" |}] in
  load_criteria_data false data = Return (criteria, 1, 5) /\
  load_criteria_data true data = Return (criteria, 1, 5) /\
  compute_results criteria rows 1 5 = Return out /\
  (exists a c, out !! 0%nat = Some a /\ out !! 2%nat = Some c /\
               F64.ltb (key_of a) (key_of c) = true) /\
  ~ StronglySorted ranks_above out.
Proof.
  intros big data criteria rows out.
  split; [vm_compute; reflexivity |].
  split; [vm_compute; reflexivity |].
  split; [vm_compute; reflexivity |].
  split.
  - eexists _, _. repeat split; vm_compute; reflexivity.
  - intros Hs. apply StronglySorted_cons in Hs as [Hf _].
    apply Forall_cons in Hf as [Hab _]. vm_compute in Hab. discriminate.
Qed.

(** C5, amended: when no weighted score of the output is a NaN, the
    output holds the lines of the rows, one per row; it is in descending
    order of the value of the weighted score; and for every value the
    lines with that value are in the order of their rows. *)
Theorem ranking_sorted_stable (criteria : list Criterion) (rows : list row)
    (min_score max_score : Z) (out : list Result) :
  compute_results criteria rows min_score max_score = Return out ->
  Forall (fun r => F64.is_nan (key_of r) = false) out ->
  exists results,
    Forall2 (fun r x => compute_row criteria r min_score max_score = Return x)
            rows results /\
    out ≡ₚ results /\
    StronglySorted ranks_above out /\
    forall k, filter (tied_at k) out = filter (tied_at k) results.
Proof.
  unfold compute_results. intros H Hnan.
  destruct (compute_rows criteria rows min_score max_score) as [results |] eqn:Hrows;
    [| discriminate].
  simpl in H. unfold sort_results in H.
  destruct (keyed results) as [l |] eqn:Hl; [| discriminate].
  simpl in H. injection H as <-.
  destruct (keyed_spec _ _ Hl) as [Hsnd Hkey].
  pose proof (sort_reverse_Permutation F64.ltb l) as Hperm.
  assert (Hkey' : Forall (fun p => p.1 = key_of p.2) (sort_reverse F64.ltb l)).
  { rewrite Hperm. exact Hkey. }
  assert (Hok' : Forall (fun p => F64.is_nan p.1 = false) (sort_reverse F64.ltb l)).
  { rewrite Forall_fmap in Hnan. rewrite Forall_forall in Hnan, Hkey' |- *.
    intros p Hp. rewrite (Hkey' p Hp). apply (Hnan p Hp). }
  assert (Hok : keys_ok (fun k => F64.is_nan k = false) l).
  { unfold keys_ok. rewrite <- Hperm. exact Hok'. }
  exists results. split; [apply compute_rows_Forall2, Hrows |].
  split; [rewrite Hperm, <- Hsnd; reflexivity |].
  split.
  - apply sorted_keyed; [exact Hkey' | exact Hok' |].
    apply (sort_reverse_sorted F64.ltb (fun k => F64.is_nan k = false));
      [exact ltb_asym | exact ltb_neg_trans | exact Hok].
  - intros k.
    change (filter (tied_at k) (sort_reverse F64.ltb l).*2 = filter (tied_at k) results).
    rewrite (filter_keyed k _ Hkey'), <- Hsnd, (filter_keyed k _ Hkey).
    f_equal.
    apply (sort_reverse_filter F64.ltb (fun k => F64.is_nan k = false)
             (fun a => F64.eqb a k)); [| exact Hok].
    intros a b Ha Hb. apply eqb_below; assumption.
Qed.

Lemma ranking_sorted_stable_witness :
  let criteria := [criterion "a" "a" (lit 6 (-1)); criterion "b" "b" (lit 4 (-1))] in
  let rows := [row_of "low" [("a", "1"); ("b", "2")];
               row_of "first" [("a", "4"); ("b", "4")];
               row_of "second" [("a", "4"); ("b", "4.0")]] in
  let out := [{| tool := "first"; weighted_score := "4.000";
                 normalized_percent := "80.0"; notes := "" |};
              {| tool := "second"; weighted_score := "4.000";
                 normalized_percent := "80.0"; notes := "" |};
              {| tool := "low"; weighted_score := "1.400";
                 normalized_percent := "30.0"; notes := "" |}] in
  exists results,
    Forall2 (fun r x => compute_row criteria r 1 5 = Return x) rows results /\
    out ≡ₚ results /\
    StronglySorted ranks_above out /\
    forall k, filter (tied_at k) out = filter (tied_at k) results.
Proof.
  intros criteria rows out.
  apply (ranking_sorted_stable criteria rows 1 5 out).
  - vm_compute. reflexivity.
  - repeat constructor.
Defined.

(** ** The weight check *)

(** Rounding never makes a NaN. *)
Lemma shr_fexp_nonneg (m e : Z) (l : location) :
  0 <= m -> 0 <= shr_m (shr_fexp 53 1024 m e l).1.
Proof.
  intros Hm. unfold shr_fexp, shr.
  destruct (fexp 53 1024 (Zdigits2 m + e) - e) as [| q |]; simpl;
    try (rewrite shr_m_of_loc; exact Hm).
  apply iter_shr_1_ge. rewrite shr_m_of_loc. lia.
Qed.

Lemma binary_round_aux_not_nan (sx : bool) (mx ex : Z) (lx : location) :
  0 <= mx -> F64.is_nan (binary_round_aux 53 1024 sx mx ex lx) = false.
Proof.
  intros Hm. unfold binary_round_aux.
  pose proof (shr_fexp_nonneg mx ex lx Hm) as H1.
  destruct (shr_fexp 53 1024 mx ex lx) as [mrs' e']. simpl in H1.
  pose proof (round_nearest_even_ge (shr_m mrs') (loc_of_shr_record mrs')) as Hr.
  set (m1 := round_nearest_even (shr_m mrs') (loc_of_shr_record mrs')) in *.
  pose proof (shr_fexp_nonneg m1 e' loc_Exact ltac:(lia)) as H2.
  destruct (shr_fexp 53 1024 m1 e' loc_Exact) as [mrs'' e'']. simpl in H2.
  destruct (shr_m mrs'') as [| m | m]; try lia; try reflexivity.
  destruct (e'' <=? 1024 - 53); reflexivity.
Qed.

Lemma binary_normalize_not_nan (m e : Z) (s : bool) :
  F64.is_nan (binary_normalize 53 1024 m e s) = false.
Proof.
  unfold binary_normalize, binary_round.
  destruct m as [| p | p]; [reflexivity | |];
    destruct (shl_align p e _) as [mz ez];
    apply binary_round_aux_not_nan; lia.
Qed.

(** The difference with one of a float that is not a NaN is not a NaN. *)
Lemma sub_one_not_nan (x : float) :
  F64.is_nan x = false -> F64.is_nan (F64.abs (F64.sub x F64.one)) = false.
Proof.
  destruct x as [s | s | | s m e]; try discriminate; intros _; try reflexivity.
  unfold F64.sub, F64.one, SFsub.
  match goal with
  | |- F64.is_nan (F64.abs ?b) = false =>
      assert (Hb : F64.is_nan b = false) by apply binary_normalize_not_nan;
      destruct b; try discriminate; reflexivity
  end.
Qed.

(** What the loader accepts has a sum of weights within the tolerance of
    one, unless that sum is a NaN. *)
Lemma weight_check_sound (compensated : bool) (data : document)
    (criteria : list Criterion) (lo hi : Z) :
  load_criteria_data compensated data = Return (criteria, lo, hi) ->
  F64.is_nan (total_weight compensated data) = false ->
  F64.leb (F64.abs (F64.sub (total_weight compensated data) F64.one)) tolerance = true.
Proof.
  intros Hload Hnan.
  destruct (load_criteria_data_accepts _ _ _ _ _ Hload) as (Hw & _).
  unfold weights_off, F64.gtb in Hw.
  apply not_ltb_leb; [reflexivity | apply sub_one_not_nan, Hnan | exact Hw].
Qed.

(** A sum of weights beyond the tolerance is rejected. *)
Lemma weights_off_rejected (compensated : bool) (data : document) :
  weights_off compensated data = true ->
  load_criteria_data compensated data = Raise weights_error.
Proof. intros H. rewrite load_criteria_data_unfold, H. reflexivity. Qed.

(** The sums 0.98 and 1.02 of the specification are rejected. *)
Lemma weights_098_102_rejected (compensated : bool) :
  load_criteria_data compensated
    (rubric None None [("a", lit 58 (-2)); ("b", lit 4 (-1))]) = Raise weights_error /\
  load_criteria_data compensated
    (rubric None None [("a", lit 62 (-2)); ("b", lit 4 (-1))]) = Raise weights_error.
Proof. destruct compensated; split; vm_compute; reflexivity. Qed.

(** C1, at the rubric whose single weight is a NaN: the sum of the
    weights is a NaN, its distance to one is not at most the tolerance,
    and the loader returns the rubric all the same, since the test
    [abs(total_weight - 1.0) > 1e-5] is false on a NaN. *)
Theorem nan_weight_accepted (compensated : bool) :
  let data := rubric None None [("a", S754_nan)] in
  F64.leb (F64.abs (F64.sub (total_weight compensated data) F64.one)) tolerance = false /\
  load_criteria_data compensated data = Return ([criterion "a" "a" S754_nan], 1, 5).
Proof. destruct compensated; split; vm_compute; reflexivity. Qed.

(** ** The range of a score *)

(** The comparison of an integer with a float that is finite is the
    comparison of two integers. *)
Lemma compare_Z_exact (x : float) (z0 : Z) :
  F64.compare_Z z0 x = Some Eq ->
  exists num den, 0 < den /\ forall z, F64.compare_Z z x = Some (z * den ?= num).
Proof.
  destruct x as [s | s | | s m e]; simpl.
  - intros _. exists 0, 1. split; [lia |]. intros z. rewrite Z.mul_1_r. reflexivity.
  - destruct s; discriminate.
  - discriminate.
  - intros _. destruct (0 <=? e) eqn:He.
    + exists (cond_Zopp s (Zpos m) * 2 ^ e), 1. split; [lia |].
      intros z. rewrite Z.mul_1_r. reflexivity.
    + exists (cond_Zopp s (Zpos m)), (2 ^ (- e)).
      split; [apply Z.pow_pos_nonneg; lia | reflexivity].
Qed.

(** C2, the claim at a scale whose ends are swapped: the score 5 equals
    [min_score] and is rejected. *)
Lemma score_at_min_rejected_on_swapped_scale :
  exists score,
    PyFloat.of_string "5" = Some score /\ F64.eq_Z score 5 = true /\
    parse_score "5" 5 1 = Raise (ValueError (ScoreOutOfRange score)).
Proof. eexists. repeat split; vm_compute; reflexivity. Qed.

(** C2, amended: on a scale with [min_score <= max_score], a cell whose
    score equals [min_score] or [max_score] is accepted, and a cell whose
    score equals [min_score - 1] or [max_score + 1] is rejected with the
    out-of-range error that carries the score. *)
Theorem score_bounds_inclusive (value : string) (score : float)
    (min_score max_score : Z) :
  PyFloat.of_string value = Some score ->
  min_score <= max_score ->
  (F64.eq_Z score min_score = true \/ F64.eq_Z score max_score = true ->
   parse_score value min_score max_score = Return score) /\
  (F64.eq_Z score (min_score - 1) = true \/ F64.eq_Z score (max_score + 1) = true ->
   parse_score value min_score max_score = Raise (ValueError (ScoreOutOfRange score))).
Proof.
  intros Hv Hle. unfold parse_score. rewrite Hv.
  unfold F64.eq_Z, F64.Z_le, F64.le_Z. split; intros [H | H].
  all: match type of H with
       | match F64.compare_Z ?z ?x with _ => _ end = true =>
           destruct (F64.compare_Z z x) as [[] |] eqn:Hc; try discriminate;
           destruct (compare_Z_exact _ _ Hc) as (num & den & Hden & Hall);
           rewrite Hall in Hc; injection Hc as Hc; apply Z.compare_eq_iff in Hc
       end.
  all: rewrite ?(Hall min_score), ?(Hall max_score).
  all: destruct (Z.compare_spec (min_score * den) num);
       destruct (Z.compare_spec (max_score * den) num);
       try reflexivity; exfalso; nia.
Qed.

Lemma score_bounds_inclusive_witness :
  (F64.eq_Z (lit 5 0) 1 = true \/ F64.eq_Z (lit 5 0) 5 = true ->
   parse_score "5" 1 5 = Return (lit 5 0)) /\
  (F64.eq_Z (lit 5 0) (1 - 1) = true \/ F64.eq_Z (lit 5 0) (5 + 1) = true ->
   parse_score "5" 1 5 = Raise (ValueError (ScoreOutOfRange (lit 5 0)))).
Proof.
  apply (score_bounds_inclusive "5" (lit 5 0) 1 5); [vm_compute; reflexivity | lia].
Defined.

(** ** The keys of the ranking always parse

    The text that [format_f] prints is read back by [of_string], so the
    sort of the scorer never raises: the scorer returns as soon as every
    row has its line. *)

Section Reparse.

Lemma chars_app (a b : string) :
  list_ascii_of_string (a +:+ b) = list_ascii_of_string a ++ list_ascii_of_string b.
Proof. induction a as [| c a IH]; simpl; [reflexivity | by rewrite IH]. Qed.

Lemma chars_length (s : string) : String.length s = length (list_ascii_of_string s).
Proof. induction s as [| c s IH]; simpl; [reflexivity | by rewrite IH]. Qed.

Lemma chars_substring (s : string) :
  forall n m, list_ascii_of_string (substring n m s)
              = take m (drop n (list_ascii_of_string s)).
Proof.
  induction s as [| c s IH]; intros [| n] [| m]; simpl; try reflexivity.
  - by rewrite IH.
  - apply IH.
  - apply IH.
Qed.

Lemma uint_digits (d : Decimal.uint) :
  digits (list_ascii_of_string (NilEmpty.string_of_uint d)).
Proof. induction d; simpl; constructor; (reflexivity || assumption). Qed.

Lemma of_N_digits (n : N) :
  list_ascii_of_string (PyStr.of_N n) <> [] /\
  digits (list_ascii_of_string (PyStr.of_N n)).
Proof.
  unfold PyStr.of_N, NilZero.string_of_uint.
  destruct (N.to_uint n) as [| d | d | d | d | d | d | d | d | d | d]; simpl;
    (split; [discriminate |]);
    constructor; try reflexivity; try constructor; apply uint_digits.
Qed.

Lemma digit_not_space (c : ascii) :
  PyStr.isdigit c = true ->
  PyFloat.isspace c = false /\ Ascii.eqb c "-" = false /\ Ascii.eqb c "+" = false /\
  Ascii.eqb c "_" = false.
Proof.
  destruct c as [[] [] [] [] [] [] [] []]; try discriminate; intros _;
    repeat split; reflexivity.
Qed.

Lemma strip_by_id (p : ascii -> bool) (l : list ascii) :
  Forall (fun c => p c = false) l -> PyStr.strip_by p l = l.
Proof.
  intros H. unfold PyStr.strip_by.
  assert (Hd : forall k, Forall (fun c => p c = false) k -> PyStr.dropwhile p k = k).
  { intros [| c k] Hk; [reflexivity |]. simpl.
    apply Forall_cons in Hk as [-> _]. reflexivity. }
  rewrite (Hd l H), Hd, rev_involutive; [reflexivity |].
  rewrite Forall_forall in H |- *. intros c Hc. apply H.
  apply list_elem_of_In, in_rev, list_elem_of_In in Hc. exact Hc.
Qed.

(** A run of digits is read whole when what follows is the point or the
    end. *)
Lemma digitpart_run (ds rest : list ascii) :
  digits ds -> (rest = [] \/ exists F, rest = "."%char :: F) ->
  forall acc n, exists v, PyFloat.digitpart acc n (ds ++ rest) = (v, (n + length ds)%nat, rest).
Proof.
  intros Hds Hrest. induction Hds as [| c ds Hc Hds IH]; intros acc n.
  - exists acc. rewrite Nat.add_0_r. simpl.
    destruct Hrest as [-> | [F ->]]; reflexivity.
  - simpl. rewrite Hc. destruct (IH (10 * acc + PyStr.digit c) (S n)) as [v Hv].
    exists v. rewrite Hv. f_equal. f_equal. lia.
Qed.

Lemma parse_fixed (sg : bool) (I F : list ascii) :
  I <> [] -> digits I -> digits F ->
  exists k, PyFloat.of_string
              (string_of_list_ascii ((if sg then ["-"%char] else []) ++ I ++ "."%char :: F))
            = Some k.
Proof.
  intros HI HdI HdF. unfold PyFloat.of_string.
  rewrite list_ascii_of_string_of_list_ascii, strip_by_id.
  2:{ apply Forall_app. split; [destruct sg; repeat constructor |].
      apply Forall_app. split.
      - eapply Forall_impl; [exact HdI |]. intros c Hc. apply digit_not_space, Hc.
      - constructor; [reflexivity |].
        eapply Forall_impl; [exact HdF |]. intros c Hc. apply digit_not_space, Hc. }
  assert (Hsign : PyFloat.sign ((if sg then ["-"%char] else []) ++ I ++ "."%char :: F)
                  = (sg, I ++ "."%char :: F)).
  { destruct sg; [reflexivity |]. destruct I as [| c I]; [contradiction |].
    apply Forall_cons in HdI as [Hc _].
    destruct (digit_not_space c Hc) as (_ & Hm & Hp & _).
    simpl. rewrite Hm, Hp. reflexivity. }
  rewrite Hsign. unfold PyFloat.floatnumber.
  destruct (digitpart_run I ("."%char :: F) HdI ltac:(right; eauto) 0 0%nat) as [vi Hvi].
  rewrite Hvi.
  destruct (digitpart_run F [] HdF ltac:(left; reflexivity) 0 0%nat) as [vf Hvf].
  rewrite app_nil_r in Hvf. simpl. rewrite Hvf.
  destruct I as [| c I]; [contradiction |]. simpl. eauto.
Qed.

Lemma fixed_chars (p : nat) (n : Z) :
  exists I F, I <> [] /\ digits I /\ digits F /\
    list_ascii_of_string (PyFloat.fixed (S p) n) = I ++ "."%char :: F.
Proof.
  unfold PyFloat.fixed.
  destruct (of_N_digits (Z.to_N n)) as [Hne Hd].
  set (D := PyStr.of_N (Z.to_N n)) in *.
  set (ds := PyStr.replicate (S (S p) - String.length D) "0" +:+ D).
  assert (Hds : digits (list_ascii_of_string ds)).
  { unfold ds, PyStr.replicate.
    rewrite chars_app, list_ascii_of_string_of_list_ascii.
    apply Forall_app. split; [| exact Hd].
    apply Forall_forall. intros c Hc.
    apply list_elem_of_In, repeat_spec in Hc. subst c. reflexivity. }
  assert (Hlen : (S (S p) <= length (list_ascii_of_string ds))%nat).
  { unfold ds, PyStr.replicate.
    rewrite chars_app, list_ascii_of_string_of_list_ascii, length_app, repeat_length.
    rewrite chars_length. lia. }
  exists (take (String.length ds - S p) (list_ascii_of_string ds)),
         (take (S p) (drop (String.length ds - S p) (list_ascii_of_string ds))).
  rewrite !chars_app, !chars_substring, chars_length. simpl drop.
  repeat split.
  - intros H. apply (f_equal length) in H. rewrite length_take in H. simpl in H. lia.
  - apply Forall_take, Hds.
  - apply Forall_take, Forall_drop, Hds.
Qed.

Lemma format_f_parses (p : nat) (x : float) :
  exists k, PyFloat.of_string (PyFloat.format_f (S p) x) = Some k.
Proof.
  assert (Hfix : forall (s : bool) n,
             exists k, PyFloat.of_string ((if s then "-" else "") +:+ PyFloat.fixed (S p) n)
                     = Some k).
  { intros s n. destruct (fixed_chars p n) as (I & F & HI & HdI & HdF & Hc).
    destruct (parse_fixed s I F HI HdI HdF) as [k Hk]. exists k. rewrite <- Hk.
    f_equal. rewrite <- (string_of_list_ascii_of_string (_ +:+ _)).
    f_equal. rewrite chars_app, Hc. destruct s; reflexivity. }
  destruct x as [s | s | | s m e]; unfold PyFloat.format_f.
  - apply (Hfix s 0).
  - destruct s; eexists; vm_compute; reflexivity.
  - eexists; vm_compute; reflexivity.
  - apply (Hfix s (F64.scaled (S p) m e)).
Qed.

(** The sort raises on no list of lines whose weighted scores were
    printed by [format_f]. *)
Lemma keyed_returns (results : list Result) :
  Forall (fun r => exists x, weighted_score r = PyFloat.format_f 3 x) results ->
  exists l, keyed results = Return l.
Proof.
  induction 1 as [| r results [x Hx] _ [l Hl]]; simpl; [eauto |].
  unfold sort_key. rewrite Hx. destruct (format_f_parses 2 x) as [k ->].
  simpl. rewrite Hl. simpl. eauto.
Qed.

Lemma compute_row_formats (criteria : list Criterion) (r : row) (lo hi : Z) (res : Result) :
  compute_row criteria r lo hi = Return res ->
  exists x, weighted_score res = PyFloat.format_f 3 x.
Proof.
  unfold compute_row.
  destruct (getitem r "tool"); [| discriminate]. simpl.
  destruct (score_criteria criteria r lo hi totals0) as [s |]; [| discriminate]. simpl.
  destruct (truediv (raw_total s) (max_raw s)); [| discriminate]. simpl.
  intros [= <-]. simpl. eauto.
Qed.

(** X10: once every row has its line the scorer returns: the sort, which
    reads every weighted score back as a float, raises on none of them. *)
Lemma compute_results_returns (criteria : list Criterion) (rows : list row)
    (lo hi : Z) (results : list Result) :
  compute_rows criteria rows lo hi = Return results ->
  exists out, compute_results criteria rows lo hi = Return out.
Proof.
  intros Hrows. unfold compute_results. rewrite Hrows. simpl.
  unfold sort_results.
  destruct (keyed_returns results) as [l Hl].
  - pose proof (compute_rows_Forall2 _ _ _ _ _ Hrows) as H2.
    clear Hrows. induction H2 as [| r x rows results Hx _ IH]; constructor; auto.
    eapply compute_row_formats, Hx.
  - rewrite Hl. simpl. eauto.
Qed.

End Reparse.

(** * Further properties of the pipeline *)

(** ** Trimming *)

Section Trimming.
Variable p : ascii -> bool.

Lemma dropwhile_suffix (l : list ascii) :
  exists pre, l = pre ++ PyStr.dropwhile p l.
Proof.
  induction l as [| c l [pre IH]]; simpl; [exists []; reflexivity |].
  destruct (p c); [| exists []; reflexivity].
  exists (c :: pre). simpl. f_equal. exact IH.
Qed.

Lemma dropwhile_head (l : list ascii) (c : ascii) (l' : list ascii) :
  PyStr.dropwhile p l = c :: l' -> p c = false.
Proof.
  induction l as [| d l IH]; simpl; [discriminate |].
  destruct (p d) eqn:Hd; [exact IH |]. intros [= <- _]. exact Hd.
Qed.

Lemma dropwhile_keeps (c : ascii) (l : list ascii) :
  p c = false -> PyStr.dropwhile p (c :: l) = c :: l.
Proof. intros H. simpl. rewrite H. reflexivity. Qed.

Lemma dropwhile_idem (l : list ascii) :
  PyStr.dropwhile p (PyStr.dropwhile p l) = PyStr.dropwhile p l.
Proof.
  destruct (PyStr.dropwhile p l) as [| c l'] eqn:H; [reflexivity |].
  apply dropwhile_keeps, (dropwhile_head _ _ _ H).
Qed.

(** What is left after trimming starts and ends with a character that
    is kept. *)
Lemma strip_by_ends (l : list ascii) :
  PyStr.dropwhile p (PyStr.strip_by p l) = PyStr.strip_by p l /\
  PyStr.dropwhile p (rev (PyStr.strip_by p l)) = rev (PyStr.strip_by p l).
Proof.
  unfold PyStr.strip_by. rewrite rev_involutive, dropwhile_idem.
  split; [| reflexivity].
  destruct (dropwhile_suffix (rev (PyStr.dropwhile p l))) as [pre Hpre].
  set (B := PyStr.dropwhile p (rev (PyStr.dropwhile p l))) in *.
  apply (f_equal (@rev ascii)) in Hpre.
  rewrite rev_involutive, rev_app_distr in Hpre.
  destruct (rev B) as [| c R] eqn:HR; [reflexivity |].
  apply dropwhile_keeps. simpl in Hpre.
  apply (dropwhile_head l c (R ++ rev pre)). exact Hpre.
Qed.

Lemma strip_by_idem (l : list ascii) :
  PyStr.strip_by p (PyStr.strip_by p l) = PyStr.strip_by p l.
Proof.
  destruct (strip_by_ends l) as [H1 H2].
  unfold PyStr.strip_by at 1. rewrite H1, H2, rev_involutive. reflexivity.
Qed.

End Trimming.

Lemma strip_idem (s : string) : PyStr.strip (PyStr.strip s) = PyStr.strip s.
Proof.
  unfold PyStr.strip.
  rewrite list_ascii_of_string_of_list_ascii, strip_by_idem. reflexivity.
Qed.

(** ** What the loaders return *)

Lemma criteria_names (l : list entry) :
  map name (map (fun c => {| cid := PyStr.strip (entry_id c);
                             name := PyStr.strip (entry_name c);
                             weight := entry_weight c |}) l)
  = map (fun c => PyStr.strip (entry_name c)) l.
Proof. induction l as [| c l IH]; simpl; [reflexivity | by rewrite IH]. Qed.

(** X1: the criteria that [load_criteria] returns are the entries of the
    document in their order, with the weights as given and the ids and
    names trimmed, so that trimming them again changes nothing; the ids
    are pairwise distinct; the scale is the one of the document, 1 and 5
    where it gives none. *)
Theorem loaded_criteria_shape (compensated : bool) (data : document)
    (criteria : list Criterion) (min_score max_score : Z) :
  load_criteria_data compensated data = Return (criteria, min_score, max_score) ->
  map weight criteria = map entry_weight (raw_criteria data) /\
  map cid criteria = map (fun c => PyStr.strip (entry_id c)) (raw_criteria data) /\
  map name criteria = map (fun c => PyStr.strip (entry_name c)) (raw_criteria data) /\
  Forall (fun c => PyStr.strip (cid c) = cid c /\ PyStr.strip (name c) = name c) criteria /\
  NoDup (map cid criteria) /\
  min_score = default 1 (scale_min data) /\ max_score = default 5 (scale_max data).
Proof.
  rewrite load_criteria_data_unfold.
  destruct (weights_off compensated data); [discriminate |].
  case_decide as Hnd; [| discriminate]. intros [= <- <- <-].
  rewrite criteria_weights, criteria_ids, criteria_names. unfold trimmed_ids in Hnd.
  repeat split; try assumption.
  apply Forall_forall. intros c Hc.
  apply list_elem_of_In, in_map_iff in Hc as (e & <- & _). simpl.
  split; apply strip_idem.
Qed.

Lemma loaded_criteria_shape_witness :
  let data := rubric (Some 0) None [(" a ", lit 6 (-1)); ("b", lit 4 (-1))] in
  let criteria := [criterion "a" "a" (lit 6 (-1)); criterion "b" "b" (lit 4 (-1))] in
  map weight criteria = map entry_weight (raw_criteria data) /\
  map cid criteria = map (fun c => PyStr.strip (entry_id c)) (raw_criteria data) /\
  map name criteria = map (fun c => PyStr.strip (entry_name c)) (raw_criteria data) /\
  Forall (fun c => PyStr.strip (cid c) = cid c /\ PyStr.strip (name c) = name c) criteria /\
  NoDup (map cid criteria) /\
  0 = default 1 (scale_min data) /\ 5 = default 5 (scale_max data).
Proof.
  intros data criteria.
  apply (loaded_criteria_shape true data criteria 0 5). vm_compute. reflexivity.
Defined.

(** X2: a rubric without criteria is rejected with the error of the
    weight check, whatever its scale: the sum of no weight is 0. *)
Theorem empty_criteria_rejected (compensated : bool) (data : document) :
  raw_criteria data = [] ->
  load_criteria_data compensated data = Raise weights_error.
Proof.
  intros H. apply weights_off_rejected.
  destruct (weights_off compensated data) eqn:Hw; [reflexivity |].
  exfalso. exact (weights_ok_nonempty _ _ Hw H).
Qed.

Lemma empty_criteria_rejected_witness :
  load_criteria_data false (rubric (Some 0) (Some 10) []) = Raise weights_error.
Proof. apply empty_criteria_rejected. reflexivity. Defined.

(** ** What [parse_score] accepts *)

(** The comparison of an integer with a finite float is the comparison
    of two integers, the same two for every integer. *)
Lemma compare_Z_finite (x : float) :
  is_finite x = true ->
  exists num den, 0 < den /\ forall z, F64.compare_Z z x = Some (z * den ?= num).
Proof.
  destruct x as [s | s | | s m e]; try discriminate; intros _; simpl.
  - exists 0, 1. split; [lia |]. intros z. rewrite Z.mul_1_r. reflexivity.
  - destruct (0 <=? e) eqn:He.
    + exists (cond_Zopp s (Zpos m) * 2 ^ e), 1. split; [lia |].
      intros z. rewrite Z.mul_1_r. reflexivity.
    + exists (cond_Zopp s (Zpos m)), (2 ^ (- e)).
      split; [apply Z.pow_pos_nonneg; lia | reflexivity].
Qed.

Lemma in_range_finite (lo hi : Z) (x : float) :
  F64.Z_le lo x && F64.le_Z x hi = true -> is_finite x = true.
Proof.
  unfold F64.Z_le, F64.le_Z.
  destruct x as [s | [] | | s m e]; simpl; try reflexivity; discriminate.
Qed.

Lemma parse_score_returns (value : string) (lo hi : Z) (score : float) :
  parse_score value lo hi = Return score ->
  PyFloat.of_string value = Some score /\ is_finite score = true /\ lo <= hi.
Proof.
  unfold parse_score.
  destruct (PyFloat.of_string value) as [x |]; [| discriminate].
  destruct (F64.Z_le lo x && F64.le_Z x hi) eqn:Hr; [| discriminate].
  intros [= <-]. pose proof (in_range_finite _ _ _ Hr) as Hfin.
  repeat split; try assumption.
  destruct (compare_Z_finite x Hfin) as (num & den & Hden & Hall).
  unfold F64.Z_le, F64.le_Z in Hr. rewrite !Hall in Hr.
  destruct (Z.compare_spec (lo * den) num);
    destruct (Z.compare_spec (hi * den) num); try discriminate; nia.
Qed.

(** X4: a score that [parse_score] returns is the float its text reads
    as, and it is finite: a NaN or an infinity is never accepted,
    whatever the scale; and nothing at all is accepted on a scale whose
    [min_score] exceeds its [max_score]. *)
Theorem parse_score_accepts (value : string) (min_score max_score : Z) (score : float) :
  parse_score value min_score max_score = Return score ->
  PyFloat.of_string value = Some score /\ is_finite score = true /\
  min_score <= max_score.
Proof. apply parse_score_returns. Qed.

Lemma parse_score_accepts_witness :
  PyFloat.of_string " 2.5 " = Some (lit 25 (-1)) /\ is_finite (lit 25 (-1)) = true /\
  1 <= 5.
Proof. apply (parse_score_accepts " 2.5 " 1 5 (lit 25 (-1))). vm_compute. reflexivity. Defined.

(** What [parse_score] raises: the text is no number, or the number is
    outside the scale. *)
Lemma parse_score_raises (value : string) (lo hi : Z) (e : exn) :
  parse_score value lo hi = Raise e ->
  e = ValueError (match PyFloat.of_string value with
                  | None => CouldNotConvert value
                  | Some score => ScoreOutOfRange score
                  end).
Proof.
  unfold parse_score. destruct (PyFloat.of_string value) as [x |].
  - destruct (_ && _); [discriminate | intros [= <-]; reflexivity].
  - intros [= <-]. reflexivity.
Qed.

(** ** The first failure decides *)

Lemma score_criteria_app (pre post : list Criterion) (r : row) (lo hi : Z) :
  forall t,
    score_criteria (pre ++ post) r lo hi t =
    match score_criteria pre r lo hi t with
    | Return t' => score_criteria post r lo hi t'
    | Raise e => Raise e
    end.
Proof.
  induction pre as [| c pre IH]; intros t; simpl; [reflexivity |].
  destruct (getitem r (cid c)) as [v |]; [| reflexivity]. simpl.
  destruct (parse_score v lo hi) as [x |]; [| reflexivity]. simpl.
  destruct (float_of_int hi) as [m |]; [| reflexivity]. simpl.
  apply IH.
Qed.

(** X5: when a row has its [tool] and the cells of the criteria before
    [c] all pass, a missing column for [c] makes the scoring of the row
    raise [KeyError] with the id of [c], whatever follows [c]. *)
Theorem missing_column_names_criterion (pre post : list Criterion) (c : Criterion)
    (r : row) (min_score max_score : Z) (t : string) (s : totals) :
  r !! "tool" = Some t ->
  score_criteria pre r min_score max_score totals0 = Return s ->
  r !! cid c = None ->
  compute_row (pre ++ c :: post) r min_score max_score = Raise (KeyError (cid c)).
Proof.
  intros Ht Hpre Hc. unfold compute_row, getitem at 1. rewrite Ht. simpl.
  rewrite score_criteria_app, Hpre. simpl. unfold getitem. rewrite Hc. reflexivity.
Qed.

Lemma missing_column_names_criterion_witness :
  compute_row ([criterion "a" "a" (lit 6 (-1))] ++ criterion "b" "b" (lit 4 (-1)) :: [])
    (row_of "X" [("a", "5")]) 1 5
  = Raise (KeyError "b").
Proof.
  apply (missing_column_names_criterion [criterion "a" "a" (lit 6 (-1))] []
           (criterion "b" "b" (lit 4 (-1))) (row_of "X" [("a", "5")]) 1 5 "X"
           {| weighted_total := lit 3 0; raw_total := lit 5 0; max_raw := lit 5 0 |});
    vm_compute; reflexivity.
Defined.

(** X6: when a row has its [tool] and the cells before the one of [c]
    all pass, a cell of [c] that [parse_score] refuses makes the scoring
    of the row raise [ValueError]: with the text of the cell when it is
    no number, with the number when it is outside the scale. *)
Theorem rejected_cell_raises (pre post : list Criterion) (c : Criterion)
    (r : row) (min_score max_score : Z) (t value : string) (s : totals) :
  r !! "tool" = Some t ->
  score_criteria pre r min_score max_score totals0 = Return s ->
  r !! cid c = Some value ->
  raised (parse_score value min_score max_score) = true ->
  compute_row (pre ++ c :: post) r min_score max_score
  = Raise (ValueError (match PyFloat.of_string value with
                       | None => CouldNotConvert value
                       | Some score => ScoreOutOfRange score
                       end)).
Proof.
  intros Ht Hpre Hc Hp. unfold compute_row, getitem at 1. rewrite Ht. simpl.
  rewrite score_criteria_app, Hpre. simpl. unfold getitem. rewrite Hc. simpl.
  destruct (parse_score value min_score max_score) as [x | e] eqn:He; [discriminate |].
  rewrite (parse_score_raises _ _ _ _ He). reflexivity.
Qed.

Lemma rejected_cell_raises_witness :
  compute_row ([criterion "a" "a" (lit 6 (-1))] ++ criterion "b" "b" (lit 4 (-1)) :: [])
    (row_of "X" [("a", "5"); ("b", "n/a")]) 1 5
  = Raise (ValueError (match PyFloat.of_string "n/a" with
                       | None => CouldNotConvert "n/a"
                       | Some score => ScoreOutOfRange score
                       end)).
Proof.
  apply (rejected_cell_raises [criterion "a" "a" (lit 6 (-1))] []
           (criterion "b" "b" (lit 4 (-1))) (row_of "X" [("a", "5"); ("b", "n/a")])
           1 5 "X" "n/a"
           {| weighted_total := lit 3 0; raw_total := lit 5 0; max_raw := lit 5 0 |});
    vm_compute; reflexivity.
Defined.

(** X8: with no criterion at all, every list of rows that is not empty
    makes the scorer raise: [ZeroDivisionError] from the division of 0.0
    by 0.0 when the first row has its [tool], [KeyError] otherwise. *)
Theorem no_criteria_raises (r : row) (rows : list row) (min_score max_score : Z) :
  compute_results [] (r :: rows) min_score max_score
  = Raise (match r !! "tool" with
           | Some _ => ZeroDivisionError
           | None => KeyError "tool"
           end).
Proof.
  unfold compute_results. simpl. unfold compute_row, getitem.
  destruct (r !! "tool"); reflexivity.
Qed.

Lemma compute_results_returns_witness :
  exists out,
    compute_results [criterion "a" "a" (lit 1 0)]
      [row_of "X" [("a", "5")]; row_of "Y" [("a", "3")]] 1 5 = Return out.
Proof.
  apply (compute_results_returns [criterion "a" "a" (lit 1 0)]
           [row_of "X" [("a", "5")]; row_of "Y" [("a", "3")]] 1 5
           [{| tool := "X"; weighted_score := "5.000";
               normalized_percent := "100.0"; notes := "" |};
            {| tool := "Y"; weighted_score := "3.000";
               normalized_percent := "60.0"; notes := "" |}]).
  vm_compute. reflexivity.
Defined.

(** ** The text of the two numbers *)

Lemma fixed_chars_length (p : nat) (n : Z) :
  exists I F, I <> [] /\ digits I /\ digits F /\ length F = S p /\
    list_ascii_of_string (PyFloat.fixed (S p) n) = I ++ "."%char :: F.
Proof.
  unfold PyFloat.fixed.
  destruct (of_N_digits (Z.to_N n)) as [Hne Hd].
  set (D := PyStr.of_N (Z.to_N n)) in *.
  set (ds := PyStr.replicate (S (S p) - String.length D) "0" +:+ D).
  assert (Hds : digits (list_ascii_of_string ds)).
  { unfold ds, PyStr.replicate.
    rewrite chars_app, list_ascii_of_string_of_list_ascii.
    apply Forall_app. split; [| exact Hd].
    apply Forall_forall. intros c Hc.
    apply list_elem_of_In, repeat_spec in Hc. subst c. reflexivity. }
  assert (Hlen : (S (S p) <= length (list_ascii_of_string ds))%nat).
  { unfold ds, PyStr.replicate.
    rewrite chars_app, list_ascii_of_string_of_list_ascii, length_app, repeat_length.
    rewrite chars_length. lia. }
  exists (take (String.length ds - S p) (list_ascii_of_string ds)),
         (take (S p) (drop (String.length ds - S p) (list_ascii_of_string ds))).
  rewrite !chars_app, !chars_substring, chars_length. simpl drop.
  repeat split.
  - intros H. apply (f_equal length) in H. rewrite length_take in H. simpl in H. lia.
  - apply Forall_take, Hds.
  - apply Forall_take, Forall_drop, Hds.
  - rewrite length_take, length_drop. lia.
Qed.

Lemma format_f_shape (p : nat) (x : float) :
  number_text (S p) (PyFloat.format_f (S p) x).
Proof.
  assert (Hfix : forall (s : bool) n,
             fixed_text (S p) ((if s then "-" else "") +:+ PyFloat.fixed (S p) n)).
  { intros s n. destruct (fixed_chars_length p n) as (I & F & HI & HdI & HdF & HF & Hc).
    exists s, I, F. rewrite chars_app, Hc. repeat split; try assumption.
    destruct s; reflexivity. }
  unfold number_text. destruct x as [s | s | | s m e]; unfold PyFloat.format_f.
  - right. right. right. apply (Hfix s 0).
  - destruct s; auto.
  - auto.
  - right. right. right. apply (Hfix s (F64.scaled (S p) m e)).
Qed.

(** X11: in every line of the scorer the weighted score is [nan], [inf],
    [-inf] or a number in fixed notation with exactly three decimals, and
    the normalized percent is the same with exactly one decimal. *)
Theorem result_fields_shape (criteria : list Criterion) (r : row)
    (min_score max_score : Z) (res : Result) :
  compute_row criteria r min_score max_score = Return res ->
  number_text 3 (weighted_score res) /\ number_text 1 (normalized_percent res).
Proof.
  unfold compute_row.
  destruct (getitem r "tool"); [| discriminate]. simpl.
  destruct (score_criteria criteria r min_score max_score totals0) as [s |];
    [| discriminate]. simpl.
  destruct (truediv (raw_total s) (max_raw s)); [| discriminate]. simpl.
  intros [= <-]. simpl. split; apply format_f_shape.
Qed.

Lemma result_fields_shape_witness :
  number_text 3 "3.400" /\ number_text 1 "60.0".
Proof.
  apply (result_fields_shape
           [criterion "a" "a" (lit 6 (-1)); criterion "b" "b" (lit 4 (-1))]
           (row_of "X" [("a", "5"); ("b", "1")]) 1 5
           {| tool := "X"; weighted_score := "3.400";
              normalized_percent := "60.0"; notes := "" |}).
  vm_compute. reflexivity.
Defined.

(** ** The raw totals *)

Lemma add_not_nan (x y : float) :
  F64.is_nan x = false -> is_finite y = true -> F64.is_nan (F64.add x y) = false.
Proof.
  destruct x as [sx | sx | | sx mx ex], y as [sy | sy | | sy my ey];
    try discriminate; intros _ _; try reflexivity.
  - destruct sx, sy; reflexivity.
  - apply binary_normalize_not_nan.
Qed.

Lemma float_of_int_finite (n : Z) (m : float) :
  float_of_int n = Return m -> is_finite m = true.
Proof.
  intros H. pose proof (float_of_int_round _ _ H) as ->.
  pose proof (binary_normalize_not_nan n 0 false) as Hn.
  unfold float_of_int in H. fold (F64.round_Z n) in Hn.
  destruct (F64.round_Z n); try discriminate; reflexivity.
Qed.

Lemma score_criteria_not_nan (cs : list Criterion) (r : row) (lo hi : Z) :
  forall t s,
    score_criteria cs r lo hi t = Return s ->
    F64.is_nan (raw_total t) = false -> F64.is_nan (max_raw t) = false ->
    F64.is_nan (raw_total s) = false /\ F64.is_nan (max_raw s) = false.
Proof.
  induction cs as [| c cs IH]; intros t s Hs Hr Hm.
  - injection Hs as <-. auto.
  - destruct (score_criteria_step _ _ _ _ _ _ _ Hs)
      as (value & score & m & _ & Hp & Hf & Hrest).
    apply (IH _ _ Hrest); simpl.
    + apply add_not_nan; [exact Hr |].
      apply (parse_score_returns _ _ _ _ Hp).
    + apply add_not_nan; [exact Hm | apply (float_of_int_finite _ _ Hf)].
Qed.

(** The quotient of two integers, the second positive, is not negative
    when the first is not. *)
Lemma div_eucl_nonneg (a b : Z) : 0 <= a -> 0 < b -> 0 <= (Z.div_eucl a b).1.
Proof.
  intros Ha Hb. change ((Z.div_eucl a b).1) with (a / b).
  apply Z.div_pos; assumption.
Qed.

Lemma div_finite_not_nan (x y : float) :
  is_finite x = true -> is_finite y = true -> F64.is_zero y = false ->
  F64.is_nan (F64.div x y) = false.
Proof.
  destruct x as [sx | sx | | sx mx ex], y as [sy | sy | | sy my ey];
    try discriminate; intros _ _ _; try reflexivity.
  unfold F64.div, SFdiv, SFdiv_core_binary.
  set (e' := Z.min _ _). set (m' := match _ with Z0 => _ | Zpos _ => _ | Zneg _ => _ end).
  assert (Hm' : 0 <= m').
  { unfold m'. destruct (ex - ey - e'); try lia. apply Z.shiftl_nonneg. lia. }
  pose proof (div_eucl_nonneg m' (Zpos my) Hm' ltac:(lia)) as Hq.
  destruct (Z.div_eucl m' (Zpos my)) as [q rr]. simpl in Hq.
  apply binary_round_aux_not_nan, Hq.
Qed.

Lemma mul_hundred_not_nan (q : float) :
  F64.is_nan q = false -> F64.is_nan (F64.mul q F64.hundred) = false.
Proof.
  destruct q as [s | s | | s m e]; try discriminate; intros _; try reflexivity.
  unfold F64.mul, F64.hundred, SFmul. apply binary_round_aux_not_nan. lia.
Qed.

Lemma format_f_nan (p : nat) (x : float) :
  PyFloat.format_f (S p) x = "nan" -> x = S754_nan.
Proof.
  assert (Hfix : forall (s : bool) n,
             (if s then "-" else "") +:+ PyFloat.fixed (S p) n <> "nan").
  { intros s n H. apply (f_equal list_ascii_of_string) in H.
    destruct (fixed_chars_length p n) as (I & F & HI & HdI & _ & _ & Hc).
    rewrite chars_app, Hc in H. destruct s; [discriminate |].
    destruct I as [| c I]; [contradiction |].
    apply Forall_cons in HdI as [Hd _]. simpl in H. injection H as -> _.
    discriminate. }
  destruct x as [s | s | | s m e]; unfold PyFloat.format_f; intros H.
  - exfalso. exact (Hfix s 0 H).
  - destruct s; discriminate.
  - reflexivity.
  - exfalso. exact (Hfix s _ H).
Qed.

(** X12: the two raw totals of a row that scores are never a NaN, and
    the normalized percent of its line reads [nan] only when both totals
    have overflowed to an infinity. *)
Theorem percent_nan_only_on_overflow (criteria : list Criterion) (r : row)
    (min_score max_score : Z) (res : Result) :
  compute_row criteria r min_score max_score = Return res ->
  exists s,
    score_criteria criteria r min_score max_score totals0 = Return s /\
    F64.is_nan (raw_total s) = false /\ F64.is_nan (max_raw s) = false /\
    (normalized_percent res = "nan" ->
     is_finite (raw_total s) = false /\ is_finite (max_raw s) = false).
Proof.
  unfold compute_row.
  destruct (getitem r "tool"); [| discriminate]. simpl.
  destruct (score_criteria criteria r min_score max_score totals0) as [s |] eqn:Hs;
    [| discriminate]. simpl.
  unfold truediv. destruct (F64.is_zero (max_raw s)) eqn:Hz; [discriminate |]. simpl.
  intros [= <-]. simpl.
  destruct (score_criteria_not_nan _ _ _ _ _ _ Hs eq_refl eq_refl) as [Hr Hm].
  exists s. repeat split; try assumption.
  - apply format_f_nan in H.
    destruct (is_finite (raw_total s)) eqn:Hfr; [| reflexivity].
    exfalso.
    destruct (is_finite (max_raw s)) eqn:Hfm.
    + pose proof (div_finite_not_nan _ _ Hfr Hfm Hz) as Hd.
      pose proof (mul_hundred_not_nan _ Hd) as Hmul. rewrite H in Hmul. discriminate.
    + destruct (max_raw s) as [| sm | |]; try discriminate.
      destruct (raw_total s) as [sr | | | sr mr er]; try discriminate;
        simpl in H; discriminate.
  - apply format_f_nan in H.
    destruct (is_finite (max_raw s)) eqn:Hfm; [| reflexivity].
    exfalso.
    destruct (is_finite (raw_total s)) eqn:Hfr.
    + pose proof (div_finite_not_nan _ _ Hfr Hfm Hz) as Hd.
      pose proof (mul_hundred_not_nan _ Hd) as Hmul. rewrite H in Hmul. discriminate.
    + destruct (raw_total s) as [| sr | |]; try discriminate.
      destruct (max_raw s) as [sm | | | sm mm em]; try discriminate;
        simpl in H; destruct (xorb sr sm); discriminate.
Qed.

Lemma percent_nan_only_on_overflow_witness :
  let criteria := [criterion "a" "a" (lit 6 (-1)); criterion "b" "b" (lit 4 (-1))] in
  let r := row_of "X" [("a", "5"); ("b", "1")] in
  exists s,
    score_criteria criteria r 1 5 totals0 = Return s /\
    F64.is_nan (raw_total s) = false /\ F64.is_nan (max_raw s) = false /\
    (normalized_percent {| tool := "X"; weighted_score := "3.400";
                           normalized_percent := "60.0"; notes := "" |} = "nan" ->
     is_finite (raw_total s) = false /\ is_finite (max_raw s) = false).
Proof.
  intros criteria r.
  apply (percent_nan_only_on_overflow criteria r 1 5). vm_compute. reflexivity.
Defined.

(** ** The tabular writer *)

Lemma contains_chars (c : ascii) (s : string) :
  Forall (fun d => Ascii.eqb c d = false) (list_ascii_of_string s) ->
  PyStr.contains c s = false.
Proof.
  induction s as [| d s IH]; simpl; [reflexivity |].
  intros H. apply Forall_cons in H as [-> H]. apply IH, H.
Qed.

Lemma digit_plain (d : ascii) :
  PyStr.isdigit d = true ->
  Ascii.eqb "," d = false /\ Ascii.eqb DQUOTE d = false /\
  Ascii.eqb CR d = false /\ Ascii.eqb LF d = false.
Proof.
  destruct d as [[] [] [] [] [] [] [] []]; try discriminate; intros _;
    repeat split; reflexivity.
Qed.

(** A number as [format_f] prints it is written to the table as it is. *)
Lemma csv_field_number (p : nat) (s : string) : number_text p s -> csv_field s = s.
Proof.
  intros [-> | [-> | [-> | (sg & I & F & Hc & _ & HdI & HdF & _)]]];
    try reflexivity.
  assert (Hall : Forall (fun d => Ascii.eqb "," d = false /\ Ascii.eqb DQUOTE d = false /\
                                  Ascii.eqb CR d = false /\ Ascii.eqb LF d = false)
                        (list_ascii_of_string s)).
  { rewrite Hc. apply Forall_app. split; [destruct sg; repeat constructor |].
    apply Forall_app. split.
    - eapply Forall_impl; [exact HdI |]. intros d Hd. apply digit_plain, Hd.
    - constructor; [repeat split; reflexivity |].
      eapply Forall_impl; [exact HdF |]. intros d Hd. apply digit_plain, Hd. }
  unfold csv_field.
  rewrite !contains_chars; [reflexivity | | | |];
    (eapply Forall_impl; [exact Hall |]; intros d Hd; simpl in Hd; tauto).
Qed.

(** X13: the two numbers of a line of the scorer are never quoted by the
    tabular writer: each is written as the text the scorer printed. *)
Theorem numbers_written_verbatim (criteria : list Criterion) (r : row)
    (min_score max_score : Z) (res : Result) :
  compute_row criteria r min_score max_score = Return res ->
  csv_field (weighted_score res) = weighted_score res /\
  csv_field (normalized_percent res) = normalized_percent res.
Proof.
  unfold compute_row.
  destruct (getitem r "tool"); [| discriminate]. simpl.
  destruct (score_criteria criteria r min_score max_score totals0) as [s |];
    [| discriminate]. simpl.
  destruct (truediv (raw_total s) (max_raw s)); [| discriminate]. simpl.
  intros [= <-]. simpl.
  split; [apply (csv_field_number 3) | apply (csv_field_number 1)]; apply format_f_shape.
Qed.

Lemma numbers_written_verbatim_witness :
  csv_field "3.400" = "3.400" /\ csv_field "60.0" = "60.0".
Proof.
  apply (numbers_written_verbatim
           [criterion "a" "a" (lit 6 (-1)); criterion "b" "b" (lit 4 (-1))]
           (row_of "X" [("a", "5"); ("b", "1")]) 1 5
           {| tool := "X"; weighted_score := "3.400";
              normalized_percent := "60.0"; notes := "" |}).
  vm_compute. reflexivity.
Defined.

Lemma csv_escape_inj (s : string) : forall t, csv_escape s = csv_escape t -> s = t.
Proof.
  induction s as [| c s IH]; intros [| d t]; simpl.
  - reflexivity.
  - destruct (Ascii.eqb d DQUOTE); discriminate.
  - destruct (Ascii.eqb c DQUOTE); discriminate.
  - destruct (Ascii.eqb c DQUOTE) eqn:Hc, (Ascii.eqb d DQUOTE) eqn:Hd.
    + intros [= -> _ H]. f_equal. apply IH, H.
    + intros [= -> _]. rewrite Hc in Hd. discriminate.
    + intros [= -> _]. rewrite Hc in Hd. discriminate.
    + intros [= -> H]. f_equal. apply IH, H.
Qed.

Lemma append_inv_tail (a b c : string) : a +:+ c = b +:+ c -> a = b.
Proof.
  intros H. apply (f_equal list_ascii_of_string) in H.
  rewrite !chars_app in H. apply app_inv_tail in H.
  rewrite <- (string_of_list_ascii_of_string a), H.
  apply string_of_list_ascii_of_string.
Qed.

(** X14: the tabular writer never writes two different values of a field
    as the same text: quoting and the doubling of quotes lose nothing. *)
Theorem csv_field_inj (s t : string) : csv_field s = csv_field t -> s = t.
Proof.
  unfold csv_field.
  destruct (PyStr.contains "," s || PyStr.contains DQUOTE s
            || PyStr.contains CR s || PyStr.contains LF s) eqn:Hs;
  destruct (PyStr.contains "," t || PyStr.contains DQUOTE t
            || PyStr.contains CR t || PyStr.contains LF t) eqn:Ht.
  - intros [= H]. apply append_inv_tail in H. apply csv_escape_inj, H.
  - intros H. exfalso.
    assert (Hq : PyStr.contains DQUOTE t = true) by (rewrite <- H; reflexivity).
    rewrite Hq, orb_true_r in Ht. discriminate.
  - intros H. exfalso.
    assert (Hq : PyStr.contains DQUOTE s = true) by (rewrite H; reflexivity).
    rewrite Hq, orb_true_r in Hs. discriminate.
  - auto.
Qed.

Lemma csv_field_inj_witness : "a,b" = "a,b".
Proof. apply csv_field_inj. reflexivity. Defined.

(** ** Where the writers write *)

Lemma contains_false_chars (c : ascii) (s : string) :
  PyStr.contains c s = false ->
  Forall (fun d => Ascii.eqb c d = false) (list_ascii_of_string s).
Proof.
  induction s as [| d s IH]; simpl; [constructor |].
  destruct (Ascii.eqb c d) eqn:Hd; [discriminate |].
  intros H. constructor; [exact Hd | apply IH, H].
Qed.

Lemma dropwhile_all (p : ascii -> bool) (l : list ascii) :
  Forall (fun c => p c = true) l -> PyStr.dropwhile p l = [].
Proof. induction 1 as [| c l Hc _ IH]; simpl; [reflexivity | by rewrite Hc]. Qed.

(** A path without a separator has the empty directory. *)
Lemma dirname_no_slash (path : string) :
  PyStr.contains SLASH path = false -> dirname path = "".
Proof.
  intros H. apply contains_false_chars in H. unfold dirname.
  rewrite dropwhile_all; [reflexivity |].
  rewrite Forall_forall in H |- *. intros c Hc.
  apply list_elem_of_In, in_rev, list_elem_of_In, H in Hc.
  rewrite Ascii.eqb_sym, Hc. reflexivity.
Qed.

(** X15: a path that names a file without a directory makes both
    writers raise [FileNotFoundError] for the empty path and write
    nothing: its directory part is empty and cannot be made. *)
Theorem bare_file_name_fails (path : string) (results : list Result) (w : world) :
  PyStr.contains SLASH path = false ->
  write_csv path results w = (Raise (FileNotFoundError ""), w) /\
  write_markdown path results w = (Raise (FileNotFoundError ""), w).
Proof.
  intros H. unfold write_csv, write_markdown.
  rewrite (dirname_no_slash _ H). split; reflexivity.
Qed.

Lemma bare_file_name_fails_witness :
  let w := world_of (rubric None None []) [] in
  write_csv "results.csv" [] w = (Raise (FileNotFoundError ""), w) /\
  write_markdown "results.csv" [] w = (Raise (FileNotFoundError ""), w).
Proof. intros w. apply bare_file_name_fails. reflexivity. Defined.

(** ** The ranks of the text table *)

Lemma markdown_rows_lookup (results : list Result) :
  forall (i : N) (k : nat) (r : Result),
    results !! k = Some r ->
    markdown_rows i results !! k
    = Some ("| " +:+ PyStr.of_N (i + N.of_nat k) +:+ " | " +:+ tool r +:+ " | "
            +:+ weighted_score r +:+ " | " +:+ normalized_percent r +:+ " | "
            +:+ notes r +:+ " |" +:+ nl).
Proof.
  induction results as [| x results IH]; intros i k r Hk; [discriminate |].
  destruct k as [| k]; simpl in Hk |- *.
  - injection Hk as ->. rewrite N.add_0_r. reflexivity.
  - rewrite (IH (N.succ i) k r Hk). do 4 f_equal. rewrite Nat2N.inj_succ. lia.
Qed.

Lemma markdown_rows_length (results : list Result) :
  forall i, length (markdown_rows i results) = length results.
Proof. induction results as [| x results IH]; intros i; simpl; [| rewrite IH]; reflexivity. Qed.

(** X16: the text table has one line per result, in their order, and the
    line of the result at position [k], counted from 0, carries the rank
    [k + 1] before its four fields. *)
Theorem markdown_rank (results : list Result) (k : nat) (r : Result) :
  results !! k = Some r ->
  length (markdown_rows 1 results) = length results /\
  markdown_rows 1 results !! k
  = Some ("| " +:+ PyStr.of_N (N.of_nat (S k)) +:+ " | " +:+ tool r +:+ " | "
          +:+ weighted_score r +:+ " | " +:+ normalized_percent r +:+ " | "
          +:+ notes r +:+ " |" +:+ nl).
Proof.
  intros Hk. split; [apply markdown_rows_length |].
  rewrite (markdown_rows_lookup results 1 k r Hk). do 4 f_equal.
  rewrite Nat2N.inj_succ. lia.
Qed.

Lemma markdown_rank_witness :
  let a := {| tool := "A"; weighted_score := "4.200";
              normalized_percent := "80.0"; notes := "" |} in
  let b := {| tool := "B"; weighted_score := "3.100";
              normalized_percent := "62.5"; notes := "ok" |} in
  length (markdown_rows 1 [a; b]) = length [a; b] /\
  markdown_rows 1 [a; b] !! 1%nat
  = Some ("| " +:+ PyStr.of_N (N.of_nat 2) +:+ " | " +:+ tool b +:+ " | "
          +:+ weighted_score b +:+ " | " +:+ normalized_percent b +:+ " | "
          +:+ notes b +:+ " |" +:+ nl).
Proof. intros a b. apply (markdown_rank [a; b] 1 b). reflexivity. Defined.

(** ** A run that returns *)



(** ** Scales on which no row scores *)

(** X18: the loader does not compare the two ends of the scale, and on a
    scale whose [min_score] exceeds its [max_score] the rubric it
    returns scores no row: every row raises, and so does the scorer on
    every list of rows that is not empty. *)
Theorem inverted_scale_scores_nothing (compensated : bool) (data : document)
    (criteria : list Criterion) (min_score max_score : Z) (r : row) (rows : list row) :
  load_criteria_data compensated data = Return (criteria, min_score, max_score) ->
  max_score < min_score ->
  raised (compute_row criteria r min_score max_score) = true /\
  raised (compute_results criteria (r :: rows) min_score max_score) = true.
Proof.
  intros Hload Hinv.
  destruct (loaded_criteria_nonempty _ _ _ _ _ Hload) as [n Hn].
  assert (Hrow : raised (compute_row criteria r min_score max_score) = true).
  { destruct criteria as [| c cs]; [discriminate |].
    unfold compute_row. destruct (getitem r "tool"); [| reflexivity]. simpl.
    unfold getitem. destruct (r !! cid c) as [v |]; [| reflexivity]. simpl.
    destruct (parse_score v min_score max_score) as [x |] eqn:Hp; [| reflexivity].
    pose proof (parse_score_returns _ _ _ _ Hp). lia. }
  split; [exact Hrow |].
  unfold compute_results. simpl.
  destruct (compute_row criteria r min_score max_score); [discriminate | reflexivity].
Qed.

Lemma inverted_scale_scores_nothing_witness :
  let criteria := [criterion "a" "a" (lit 1 0)] in
  let r := row_of "X" [("a", "3")] in
  raised (compute_row criteria r 5 1) = true /\
  raised (compute_results criteria (r :: []) 5 1) = true.
Proof.
  intros criteria r.
  apply (inverted_scale_scores_nothing false (rubric (Some 5) (Some 1) [("a", lit 1 0)])
           criteria 5 1 r []); [vm_compute; reflexivity | lia].
Defined.

(** X19: on a scale whose [max_score] is 0 no row scores, whatever the
    criteria: a row whose cells all pass reaches the division with
    [max_raw] equal to 0.0 and raises [ZeroDivisionError]. *)
Theorem zero_max_scores_nothing (criteria : list Criterion) (r : row) (min_score : Z) :
  raised (compute_row criteria r min_score 0) = true /\
  forall s, score_criteria criteria r min_score 0 totals0 = Return s ->
            r !! "tool" <> None ->
            compute_row criteria r min_score 0 = Raise ZeroDivisionError.
Proof.
  assert (Hz : forall s, score_criteria criteria r min_score 0 totals0 = Return s ->
                         F64.is_zero (max_raw s) = true).
  { intros s Hs.
    rewrite (score_criteria_max_raw criteria r min_score 0 (F64.round_Z 0) eq_refl _ _ Hs).
    simpl max_raw. rewrite accumulate_zero. reflexivity. }
  split.
  - unfold compute_row. destruct (getitem r "tool"); [| reflexivity]. simpl.
    destruct (score_criteria criteria r min_score 0 totals0) as [s |] eqn:Hs;
      [| reflexivity].
    simpl. unfold truediv. rewrite (Hz s eq_refl). reflexivity.
  - intros s Hs Ht. unfold compute_row, getitem.
    destruct (r !! "tool"); [| contradiction]. simpl. rewrite Hs. simpl.
    unfold truediv. rewrite (Hz s Hs). reflexivity.
Qed.

(** A positive number of [d] binary digits is below [2^d]. *)
Lemma digits2_pos_gt (p : positive) : Zpos p < 2 ^ Zpos (digits2_pos p).
Proof.
  induction p as [p IH | p IH |]; simpl digits2_pos;
    rewrite ?Pos2Z.inj_succ, ?Z.pow_succ_r by lia; lia.
Qed.

Lemma shr_fexp_exponent (m e : Z) (l : location) :
  fexp 53 1024 (Zdigits2 m + e) <= (shr_fexp 53 1024 m e l).2 /\
  e <= (shr_fexp 53 1024 m e l).2.
Proof.
  unfold shr_fexp, shr.
  destruct (fexp 53 1024 (Zdigits2 m + e) - e) eqn:Hn; simpl; lia.
Qed.

(** An integer from [2^1024] on does not fit a float. *)
Lemma float_of_int_overflows (n : Z) :
  2 ^ 1024 <= n -> float_of_int n = Raise OverflowError.
Proof.
  intros Hn. unfold float_of_int, F64.round_Z, binary_normalize.
  destruct n as [| p | p]; try (exfalso; lia).
  pose proof (digits2_pos_gt p) as Hd.
  assert (Hdig : 1024 < Zpos (digits2_pos p)).
  { apply (Z.pow_lt_mono_r_iff 2); lia. }
  unfold binary_round, shl_align.
  assert (Hf : fexp 53 1024 (Zpos (digits2_pos p) + 0) = Zpos (digits2_pos p) - 53).
  { unfold fexp, SpecFloat.emin. lia. }
  rewrite Hf.
  destruct (Zpos (digits2_pos p) - 53 - 0) as [| q | q] eqn:Hq; try lia.
  unfold binary_round_aux.
  destruct (shr_fexp_pos (Zpos p) 0 loc_Exact ltac:(lia) ltac:(unfold emin64; lia))
    as [Hm1 _].
  destruct (shr_fexp_exponent (Zpos p) 0 loc_Exact) as [He1 _].
  simpl Zdigits2 in He1. rewrite Hf in He1.
  destruct (shr_fexp 53 1024 (Zpos p) 0 loc_Exact) as [mrs' e']. simpl in Hm1, He1.
  pose proof (round_nearest_even_ge (shr_m mrs') (loc_of_shr_record mrs')) as Hr.
  set (m1 := round_nearest_even (shr_m mrs') (loc_of_shr_record mrs')) in *.
  destruct (shr_fexp_pos m1 e' loc_Exact ltac:(lia) ltac:(unfold emin64; lia))
    as [Hm2 _].
  destruct (shr_fexp_exponent m1 e' loc_Exact) as [_ He2].
  destruct (shr_fexp 53 1024 m1 e' loc_Exact) as [mrs'' e'']. simpl in Hm2, He2.
  destruct (shr_m mrs'') as [| m |]; try lia.
  destruct (e'' <=? 1024 - 53) eqn:Hle; [apply Z.leb_le in Hle; lia | reflexivity].
Qed.

(** X20: when [max_score] is [2^1024] or more, too large for a float,
    the first cell that passes the check of the scale makes the scoring
    of the row raise [OverflowError], from adding [max_score] to the
    float [max_raw]. *)
Theorem huge_max_score_overflows (c : Criterion) (cs : list Criterion) (r : row)
    (min_score max_score : Z) (t value : string) (score : float) :
  2 ^ 1024 <= max_score ->
  r !! "tool" = Some t ->
  r !! cid c = Some value ->
  parse_score value min_score max_score = Return score ->
  compute_row (c :: cs) r min_score max_score = Raise OverflowError.
Proof.
  intros Hbig Ht Hc Hp. unfold compute_row, getitem. rewrite Ht. simpl.
  unfold getitem. rewrite Hc. simpl. rewrite Hp. simpl.
  rewrite (float_of_int_overflows _ Hbig). reflexivity.
Qed.

Lemma huge_max_score_overflows_witness :
  compute_row [criterion "a" "a" (lit 1 0)] (row_of "X" [("a", "3")]) 1 (2 ^ 1024)
  = Raise OverflowError.
Proof.
  apply (huge_max_score_overflows (criterion "a" "a" (lit 1 0)) []
           (row_of "X" [("a", "3")]) 1 (2 ^ 1024) "X" "3" (lit 3 0));
    [lia | vm_compute; reflexivity | vm_compute; reflexivity | vm_compute; reflexivity].
Defined.
